(** * University schedule chatbot: conversation context, entity vocabulary,
      follow-up resolution, response dispatch and the loader's time cleaning.

    A shallow embedding of [appv3streamlit.py] (class [UniversityChatbot]) and
    of the time handling of [data_loader2.py].  Python strings are sequences
    of Unicode code points, dictionaries keyed by field names are finite maps,
    vocabularies (whose iteration order matters) are insertion-ordered
    association lists, and the libraries the program calls (the intent
    classifier, spaCy, fuzzywuzzy's scorer, pandas' date parser, [str.lower])
    are the fields of a [Backend]. *)

From Stdlib Require Import ZArith NArith Ascii String Lia.
From stdpp Require Import base option list gmap strings.

Local Open Scope N_scope.

(** ** Python strings *)

Module PyStr.

(** A [str] is its sequence of code points. *)
Definition pystr := list N.

(** Source literals are written as in the Python files and decoded from the
    UTF-8 bytes of this file. *)
Fixpoint utf8_decode (bs : list N) : pystr :=
  match bs with
  | [] => []
  | b :: r =>
      if b <? 128 then b :: utf8_decode r
      else if b <? 224 then
        match r with
        | b1 :: r' => ((b - 192) * 64 + (b1 - 128)) :: utf8_decode r'
        | _ => []
        end
      else if b <? 240 then
        match r with
        | b1 :: b2 :: r' =>
            ((b - 224) * 4096 + (b1 - 128) * 64 + (b2 - 128)) :: utf8_decode r'
        | _ => []
        end
      else
        match r with
        | b1 :: b2 :: b3 :: r' =>
            ((b - 240) * 262144 + (b1 - 128) * 4096 + (b2 - 128) * 64 + (b3 - 128))
              :: utf8_decode r'
        | _ => []
        end
  end.

Definition U (s : string) : pystr :=
  utf8_decode (List.map N_of_ascii (list_ascii_of_string s)).

Definition nl : N := 10.

(** [str.isspace] on one code point (the characters [str.strip] removes). *)
Definition is_space (c : N) : bool :=
  ((9 <=? c) && (c <=? 13)) || ((28 <=? c) && (c <=? 32))
  || (c =? 133) || (c =? 160) || (c =? 5760)
  || ((8192 <=? c) && (c <=? 8202))
  || (c =? 8232) || (c =? 8233) || (c =? 8239) || (c =? 8287) || (c =? 12288).

Fixpoint lstrip (s : pystr) : pystr :=
  match s with
  | c :: r => if is_space c then lstrip r else s
  | [] => []
  end.

Definition rstrip (s : pystr) : pystr := rev (lstrip (rev s)).

(** [s.strip()] *)
Definition strip (s : pystr) : pystr := lstrip (rstrip s).

(** [s.startswith(p)] *)
Fixpoint startswith (s p : pystr) {struct p} : bool :=
  match p, s with
  | [], _ => true
  | a :: p', b :: s' => (a =? b) && startswith s' p'
  | _ :: _, [] => false
  end.

(** [sub in s] *)
Fixpoint contains (s sub : pystr) : bool :=
  startswith s sub || match s with [] => false | _ :: r => contains r sub end.

(** [s.replace(a, b)] for one-character [a] and [b]. *)
Definition replace_char (a b : N) (s : pystr) : pystr :=
  List.map (fun c => if c =? a then b else c) s.

(** [s.split(sep)[0]] for a one-character separator: the part before its
    first occurrence (the whole string when it does not occur). *)
Fixpoint split_first (sep : N) (s : pystr) : pystr :=
  match s with
  | [] => []
  | c :: r => if c =? sep then [] else c :: split_first sep r
  end.

(** [sep.join(parts)] *)
Fixpoint join (sep : pystr) (parts : list pystr) : pystr :=
  match parts with
  | [] => []
  | [p] => p
  | p :: rest => p ++ sep ++ join sep rest
  end.

Definition str_eqb (a b : pystr) : bool := bool_decide (a = b).

(** Two decimal digits, as [%H], [%M], [%d] and [%m] print them. *)
Definition pad2 (n : N) : pystr := [48 + (n / 10) mod 10; 48 + n mod 10].

(** Four decimal digits, as [%Y] prints a year. *)
Definition pad4 (n : N) : pystr :=
  [48 + (n / 1000) mod 10; 48 + (n / 100) mod 10; 48 + (n / 10) mod 10; 48 + n mod 10].

End PyStr.
Import PyStr.

Example U_title : U "Doç. Dr." = [68; 111; 231; 46; 32; 68; 114; 46].
Proof. reflexivity. Qed.

Example strip_both : strip (U "  Ali Veli ") = U "Ali Veli".
Proof. reflexivity. Qed.

(** ** Insertion-ordered dictionaries

    A Python [dict] iterates in insertion order, and assigning to a key that
    is already present replaces its value in place. *)

Module PyDict.
Section Dict.
Context {V : Type}.

Definition t := list (pystr * V).

(** [d[k] = v] *)
Fixpoint set (k : pystr) (v : V) (d : t) : t :=
  match d with
  | [] => [(k, v)]
  | (k', v') :: r => if str_eqb k' k then (k', v) :: r else (k', v') :: set k v r
  end.

(** [d[k]] ([None] stands for [KeyError]) *)
Fixpoint get (k : pystr) (d : t) : option V :=
  match d with
  | [] => None
  | (k', v') :: r => if str_eqb k' k then Some v' else get k r
  end.

Definition keys (d : t) : list pystr := List.map fst d.
Definition values (d : t) : list V := List.map snd d.

End Dict.
Arguments t : clear implicits.
End PyDict.

(** [Series.unique()]: the distinct values in order of first appearance. *)
Fixpoint unique {A} `{EqDecision A} (l : list A) : list A :=
  match l with
  | [] => []
  | x :: r => x :: List.filter (fun y => negb (bool_decide (y = x))) (unique r)
  end.

(** ** Values, results and the schedule table *)

(** An entity value: [None] or a string. *)
Inductive value := VNone | VStr (s : pystr).

#[global] Instance value_eq_dec : EqDecision value.
Proof. solve_decision. Defined.

(** Python truthiness: [None] and the empty string are falsy. *)
Definition truthy (v : value) : bool :=
  match v with
  | VStr (_ :: _) => true
  | _ => false
  end.

(** [a or b] *)
Definition por (a b : value) : value := if truthy a then a else b.

(** The outcome of a call that may raise. *)
Inductive pyres (A : Type) := Ok (a : A) | Raise.
Arguments Ok {A} a.
Arguments Raise {A}.

Definition bind {A B} (m : pyres A) (k : A -> pyres B) : pyres B :=
  match m with
  | Ok a => k a
  | Raise => Raise
  end.

Notation "'do' x <- m ; k" := (bind m (fun x => k))
  (at level 10, x name, m at level 100, k at level 200).

(** [datetime.time] and the calendar date of a pandas [Timestamp]. *)
Record time := mk_time { hour : N; minute : N; second : N }.
Record date := mk_date { year : N; month : N; day : N }.

#[global] Instance time_eq_dec : EqDecision time.
Proof. solve_decision. Defined.

(** One row of the cleaned table (the schema of [required_columns]); the text
    columns hold strings, empty where the sheet had no value
    ([fillna('')]); [None] is an absent time ([None]) or date ([NaT]). *)
Record ScheduleRecord := mk_row {
  Course : pystr;
  Teacher : pystr;
  Day : pystr;
  Time : option time;
  Room : pystr;
  ExamType : pystr;
  ExamDate : option date;
  ExamTime : option time
}.

Definition DataFrame := list ScheduleRecord.

(** A raw spreadsheet cell: a string, or any other object. *)
Inductive cell := CStr (s : pystr) | CObj.

Inductive lang := en | tr.

(** What spaCy returns for a text: the entity spans [(label, text)] and the
    tokens [(text, lemma)]. *)
Record doc := mk_doc {
  ents : list (string * pystr);
  tokens : list (pystr * pystr)
}.

Inductive time_format := HMS | HM.

(** ** The libraries behind the program *)

Class Backend := {
  (** [str.lower] *)
  lower : pystr -> pystr;
  (** [model.predict(vectorizer.transform([t]))[0]] *)
  classify : pystr -> string;
  (** the score [process.extractOne] computes for (query, choice) with
      [scorer=fuzz.token_sort_ratio] *)
  token_sort_ratio : pystr -> pystr -> Z;
  (** [pd.to_datetime(s, format=..., errors='coerce')] followed by [.time()]:
      [Ok None] is [NaT] *)
  to_datetime : time_format -> pystr -> pyres (option time);
  (** [nlp(text)] of the language's pipeline *)
  nlp : lang -> pystr -> doc;
  (** the phrase matcher's hits on a document: (lower-cased label, span text) *)
  matcher : lang -> doc -> list (string * pystr)
}.

(** ** The chatbot *)

(** The [entities] dictionary: field name to value. *)
Abbreviation entities := (gmap string value).

(** [d.get(k)] *)
Definition dget (d : entities) (k : string) : value := default VNone (d !! k).

(** [d.get(k, dflt)]: the default is used only when the key is missing. *)
Definition dget_or (d : entities) (k : string) (dflt : value) : value :=
  default dflt (d !! k).

(** One recorded turn. *)
Record interaction := mk_interaction {
  i_query : pystr;
  i_intent : string;
  i_entities : entities;
  i_timestamp : Z
}.

(** [self.context] *)
Record context := mk_context {
  history : list interaction;
  last_course : value;
  last_teacher : value;
  last_day : value
}.

(** [self]: the table, the three vocabularies and the context. *)
Record UniversityChatbot := mk_bot {
  df : DataFrame;
  normalized_courses : PyDict.t pystr;
  normalized_teachers : PyDict.t pystr;
  normalized_teachers_no_titles : PyDict.t pystr;
  ctx : context
}.

Definition set_ctx (self : UniversityChatbot) (c : context) : UniversityChatbot :=
  mk_bot (df self) (normalized_courses self) (normalized_teachers self)
    (normalized_teachers_no_titles self) c.

(** [l[-n:]] *)
Definition last_n {A} (n : nat) (l : list A) : list A := drop (length l - n) l.

(** [random.choice(l)], the draw being the index [rnd]. *)
Definition choice (rnd : nat) (l : list pystr) : pystr := nth (rnd mod length l) l [].

Section Chatbot.
Context `{B : Backend}.

Definition _normalize_text (text : pystr) : pystr := strip (lower text).

Definition _preprocess_courses (d : DataFrame) : PyDict.t pystr :=
  fold_left (fun m course => PyDict.set (_normalize_text course) course m)
    (unique (List.map Course d)) [].

Definition _preprocess_teachers (d : DataFrame) : PyDict.t pystr :=
  fold_left (fun m teacher =>
      if str_eqb teacher (U "-") then m
      else PyDict.set (_normalize_text teacher) teacher m)
    (unique (List.map Teacher d)) [].

Definition title_prefixes : list pystr :=
  [U "Doç. Dr."; U "Öğr. Gör. Dr."; U "Öğr. Gör."; U "Prof. Dr."; U "Dr."].

(** One turn of the loop over [title_prefixes]. *)
Definition strip_prefix (no_title prefix : pystr) : pystr :=
  if startswith no_title prefix
  then strip (drop (length prefix) no_title)
  else no_title.

(** The inner loop of [_preprocess_teachers_no_titles] on one name. *)
Definition strip_titles (teacher : pystr) : pystr :=
  fold_left strip_prefix title_prefixes teacher.

Definition no_title_key (teacher : pystr) : pystr :=
  _normalize_text (strip_titles teacher).

Definition no_titles_of (teachers : list pystr) : PyDict.t pystr :=
  fold_left (fun m teacher =>
      if str_eqb teacher (U "-") then m
      else PyDict.set (no_title_key teacher) teacher m)
    teachers [].

Definition _preprocess_teachers_no_titles (d : DataFrame) : PyDict.t pystr :=
  no_titles_of (unique (List.map Teacher d)).

(** [__init__], the table already loaded and the models in the backend. *)
Definition init (d : DataFrame) : UniversityChatbot :=
  mk_bot d (_preprocess_courses d) (_preprocess_teachers d)
    (_preprocess_teachers_no_titles d) (mk_context [] VNone VNone VNone).

Definition _format_time (time_obj : option time) : pystr :=
  match time_obj with
  | Some t => pad2 (hour t) ++ U ":" ++ pad2 (minute t)
  | None => U "time not set"
  end.

Definition detect_language (text : pystr) : lang :=
  if existsb (contains (lower text)) [U "ders"; U "hoca"; U "vize"; U "final"]
  then tr else en.

Definition predict_intent (text : pystr) : string := classify (_normalize_text text).

(** [process.extractOne(query, keys, scorer=fuzz.token_sort_ratio)]: the
    first key of the highest score, with that score; it raises on an empty
    collection. *)
Definition extractOne (query : pystr) (choices : list pystr) : pyres (pystr * Z) :=
  match choices with
  | [] => Raise
  | c :: r =>
      Ok (fold_left (fun best k =>
            if (snd best <? token_sort_ratio query k)%Z
            then (k, token_sort_ratio query k) else best)
          r (c, token_sort_ratio query c))
  end.

Definition fuzzy_match_entity_at (threshold : Z) (text : pystr)
    (candidates : PyDict.t pystr) : pyres value :=
  match text with
  | [] => Ok VNone
  | _ =>
      do ms <- extractOne (_normalize_text text) (PyDict.keys candidates);
      if (threshold <=? snd ms)%Z
      then match PyDict.get (fst ms) candidates with
           | Some v => Ok (VStr v)
           | None => Raise
           end
      else Ok VNone
  end.

(** [threshold=70] *)
Definition fuzzy_match_entity := fuzzy_match_entity_at 70.

Definition _update_context (c : context) (query : pystr) (intent : string)
    (ents : entities) (now : Z) : context :=
  let interaction := mk_interaction query intent ents now in
  let h := history c ++ [interaction] in
  let h := if (5 <? length h)%nat then last_n 5 h else h in
  mk_context h
    (dget_or ents "course" (last_course c))
    (dget_or ents "teacher" (last_teacher c))
    (dget_or ents "day" (last_day c)).

(** *** Entity extraction *)

(** The dictionary [extract_entities] starts from: every key present. *)
Definition empty_entities : entities :=
  <["course" := VNone]> (<["teacher" := VNone]> (<["exam_type" := VNone]>
  (<["day" := VNone]> (<["time" := VNone]> (<["building" := VNone]> ∅))))).

Definition pronouns (l : lang) : list pystr :=
  match l with
  | en => [U "he"; U "she"; U "her"; U "him"; U "it"]
  | tr => [U "o"; U "onun"; U "ona"]
  end.

Definition is_followup (l : lang) (normalized : pystr) : bool :=
  existsb (contains normalized) (pronouns l)
  || contains normalized (U "about") || contains normalized (U "hakkında").

(** The first vocabulary entry whose key occurs in the text. *)
Definition exact_match (normalized : pystr) (vocab : PyDict.t pystr) : option pystr :=
  option_map snd (List.find (fun kv => contains normalized (fst kv)) vocab).

Definition set_if_found (k : string) (o : option pystr) (e : entities) : entities :=
  match o with
  | Some original => <[k := VStr original]> e
  | None => e
  end.

Definition fuzzy_stage (self : UniversityChatbot) (normalized : pystr)
    (e : entities) : pyres entities :=
  do e <- (if truthy (dget e "course") then Ok e
           else do c <- fuzzy_match_entity normalized (normalized_courses self);
                Ok (<["course" := c]> e));
  if truthy (dget e "teacher") then Ok e
  else
    do t <- fuzzy_match_entity normalized (normalized_teachers self);
    if truthy t then Ok (<["teacher" := t]> e)
    else do t' <- fuzzy_match_entity normalized (normalized_teachers_no_titles self);
         Ok (<["teacher" := t']> e).

(** One turn of the loop over [doc.ents]. *)
Definition ner_step (self : UniversityChatbot) (e : entities)
    (ent : string * pystr) : pyres entities :=
  let '(label, text) := ent in
  if String.eqb label "COURSE" then
    do teacher_match <- fuzzy_match_entity text (normalized_teachers_no_titles self);
    if truthy teacher_match
    then Ok (<["course" := VNone]> (<["teacher" := teacher_match]> e))
    else Ok (<["course" := VStr text]> e)
  else if String.eqb label "TEACHER" then Ok (<["teacher" := VStr text]> e)
  else if String.eqb label "DATE" then Ok (<["day" := VStr text]> e)
  else if String.eqb label "TIME" then Ok (<["time" := VStr text]> e)
  else if String.eqb label "PERSON" && negb (truthy (dget e "teacher")) then
    do t <- fuzzy_match_entity text (normalized_teachers_no_titles self);
    Ok (<["teacher" := t]> e)
  else Ok e.

Fixpoint ner_stage (self : UniversityChatbot) (e : entities)
    (es : list (string * pystr)) : pyres entities :=
  match es with
  | [] => Ok e
  | ent :: r => do e' <- ner_step self e ent; ner_stage self e' r
  end.

(** The loop over [reversed(self.context['history'])]: it is left at the
    first interaction that fills a field. *)
Fixpoint followup_scan (e : entities) (newest_first : list interaction) : entities :=
  match newest_first with
  | [] => e
  | i :: r =>
      if negb (truthy (dget e "teacher")) && truthy (dget (i_entities i) "teacher")
      then <["teacher" := dget (i_entities i) "teacher"]> e
      else if negb (truthy (dget e "course")) && truthy (dget (i_entities i) "course")
      then <["course" := dget (i_entities i) "course"]> e
      else followup_scan e r
  end.

Definition followup_stage (followup : bool) (c : context) (e : entities) : entities :=
  if followup || negb (truthy (dget e "course") || truthy (dget e "teacher"))
  then followup_scan e (rev (history c))
  else e.

Definition turkish_days : PyDict.t pystr :=
  [(U "pazartesi", U "Pazartesi"); (U "salı", U "Salı"); (U "çarşamba", U "Çarşamba");
   (U "perşembe", U "Perşembe"); (U "cuma", U "Cuma"); (U "cumartesi", U "Cumartesi");
   (U "pazar", U "Pazar")].

Definition day_stage (d : doc) (e : entities) : entities :=
  fold_left (fun e tok =>
      match PyDict.get (lower (fst tok)) turkish_days with
      | Some name => <["day" := VStr name]> e
      | None => e
      end) (tokens d) e.

Definition keyword_to_entity (label : string) : option string :=
  if String.eqb label "course" then Some "course"
  else if String.eqb label "exam" then Some "exam_type"
  else if String.eqb label "teacher" then Some "teacher"
  else None.

Definition keyword_stage (matches : list (string * pystr)) (e : entities) : entities :=
  fold_left (fun e m =>
      match keyword_to_entity (fst m) with
      | Some key =>
          if String.eqb key "course" && truthy (dget e "teacher") then e
          else <[key := VStr (snd m)]> e
      | None => e
      end) matches e.

(** [UNIVERSITY_TERMS['buildings']] of [config.py] *)
Definition buildings : list pystr :=
  [U "201"; U "202"; U "203"; U "204"; U "206"; U "UZEM"; U "Seminer Odası"].

Definition building_stage (d : doc) (e : entities) : entities :=
  fold_left (fun e tok =>
      if existsb (str_eqb (fst tok)) buildings then <["building" := VStr (fst tok)]> e else e)
    (tokens d) e.

Definition exam_keywords (l : lang) : list pystr :=
  match l with
  | en => [U "midterm"; U "final"; U "makeup"]
  | tr => [U "vize"; U "final"; U "bütünleme"]
  end.

Definition exam_stage (l : lang) (d : doc) (e : entities) : entities :=
  fold_left (fun e tok =>
      if existsb (str_eqb (lower (snd tok))) (exam_keywords l)
      then <["exam_type" := VStr (lower (snd tok))]> e else e)
    (tokens d) e.

Definition extract_entities (self : UniversityChatbot) (text : pystr) : pyres entities :=
  let normalized := _normalize_text text in
  let l := detect_language text in
  let d := nlp l text in
  let e := empty_entities in
  let followup := is_followup l normalized in
  let e := set_if_found "course" (exact_match normalized (normalized_courses self)) e in
  let e := set_if_found "teacher" (exact_match normalized (normalized_teachers self)) e in
  do e <- fuzzy_stage self normalized e;
  do e <- ner_stage self e (ents d);
  let e := followup_stage followup (ctx self) e in
  let e := day_stage d e in
  let e := keyword_stage (matcher l d) e in
  let e := building_stage d e in
  Ok (exam_stage l d e).

(** *** Response dispatch *)

Definition is_lecture (r : ScheduleRecord) : bool := str_eqb (ExamType r) (U "Lecture").

Definition is_exam (r : ScheduleRecord) : bool :=
  existsb (str_eqb (ExamType r)) [U "Midterm"; U "Final"; U "Makeup"].

Definition nonempty (s : pystr) : bool := match s with [] => false | _ => true end.

(** [df[df["Day"] == day]] when [day] is truthy. *)
Definition narrow_day (day : value) (d : DataFrame) : DataFrame :=
  match day with
  | VStr (c :: s) => List.filter (fun r => str_eqb (Day r) (c :: s)) d
  | _ => d
  end.

(** The loops that append one line per row to the response. *)
Definition append_lines (header : pystr) (keep : ScheduleRecord -> bool)
    (line : ScheduleRecord -> pystr) (d : DataFrame) : pystr :=
  fold_left (fun response row => if keep row then response ++ line row else response)
    d header.

Definition class_schedule (course day : value) (d : DataFrame) : pystr :=
  match course with
  | VStr (c0 :: cs) =>
      let course := c0 :: cs in
      let d := List.filter (fun r => str_eqb (Course r) course && is_lecture r) d in
      let d := narrow_day day d in
      match d with
      | _ :: _ =>
          strip (append_lines (U "📚 Schedule for " ++ course ++ U ":" ++ [nl])
            (fun r => bool_decide (Time r <> None) && nonempty (Day r))
            (fun r => U "- " ++ Day r ++ U " at " ++ _format_time (Time r)
                      ++ U " in room " ++ Room r ++ [nl]) d)
      | [] => U "No schedule found for " ++ course ++ U "."
      end
  | _ => U "Which course's schedule would you like to know?"
  end.

Definition format_date (dt : date) : pystr :=
  pad2 (day dt) ++ U "." ++ pad2 (month dt) ++ U "." ++ pad4 (year dt).

(** The rows the exam answer is built from: the course's exam rows, narrowed
    to [exam_type] when that entity is truthy. *)
Definition exam_rows (course : pystr) (exam_type : value) (d : DataFrame) : DataFrame :=
  let d := List.filter (fun r => str_eqb (Course r) course && is_exam r) d in
  match exam_type with
  | VStr (c :: s) => List.filter (fun r => str_eqb (lower (ExamType r)) (lower (c :: s))) d
  | _ => d
  end.

Definition exam_info (course exam_type : value) (d : DataFrame) : pystr :=
  match course with
  | VStr (c0 :: cs) =>
      let course := c0 :: cs in
      match exam_rows course exam_type d with
      | r0 :: rs =>
          strip (append_lines (U "📝 Exam info for " ++ course ++ U ":" ++ [nl])
            (fun r => bool_decide (ExamDate r <> None))
            (fun r => U "- " ++ ExamType r ++ U " on "
                      ++ from_option format_date [] (ExamDate r)
                      ++ U " at " ++ _format_time (ExamTime r) ++ [nl]) (r0 :: rs))
      | [] => U "No exam info found for " ++ course ++ U "."
      end
  | _ => U "Which course's exam info would you like?"
  end.

Definition teacher_info (teacher : value) (d : DataFrame) : pystr :=
  match teacher with
  | VStr (c0 :: cs) =>
      let teacher := c0 :: cs in
      let d := List.filter (fun r => str_eqb (Teacher r) teacher && is_lecture r) d in
      match d with
      | _ :: _ => U "👨‍🏫 " ++ teacher ++ U " teaches: "
                  ++ join (U ", ") (unique (List.map Course d))
      | [] => U "No courses found for " ++ teacher ++ U "."
      end
  | _ => U "Which teacher would you like info about?"
  end.

Definition room_info (course day : value) (d : DataFrame) : pystr :=
  match course with
  | VStr (c0 :: cs) =>
      let course := c0 :: cs in
      let d := List.filter (fun r => str_eqb (Course r) course && is_lecture r) d in
      let d := narrow_day day d in
      match d with
      | _ :: _ =>
          strip (append_lines (U "🏫 Rooms for " ++ course ++ U ":" ++ [nl])
            (fun r => nonempty (Room r) && bool_decide (Time r <> None))
            (fun r => U "- " ++ Day r ++ U " at " ++ _format_time (Time r)
                      ++ U " in room " ++ Room r ++ [nl]) d)
      | [] => U "No room info found for " ++ course ++ U "."
      end
  | _ => U "Which course's room info would you like?"
  end.

Definition daily_schedule (day : value) (d : DataFrame) : pystr :=
  match day with
  | VStr (c0 :: cs) =>
      let day := c0 :: cs in
      let d := List.filter (fun r => str_eqb (Day r) day && is_lecture r) d in
      match d with
      | _ :: _ =>
          strip (append_lines (U "📅 Schedule for " ++ day ++ U ":" ++ [nl])
            (fun r => bool_decide (Time r <> None))
            (fun r => U "- " ++ Course r ++ U " at " ++ _format_time (Time r)
                      ++ U " in room " ++ Room r ++ U " (Teacher: " ++ Teacher r
                      ++ U ")" ++ [nl]) d)
      | [] => U "No classes found for " ++ day ++ U "."
      end
  | _ => U "Which day's schedule would you like?"
  end.

(** The Lecture rows of one day and one (present) time. *)
Definition slot_rows (day : pystr) (t : time) (d : DataFrame) : DataFrame :=
  List.filter (fun r => bool_decide (Time r = Some t))
    (List.filter (fun r => str_eqb (Day r) day) (List.filter is_lecture d)).

(** The list [conflicts] of the [schedule_conflict] branch. *)
Definition conflicts (d : DataFrame) : list (pystr * time * list pystr) :=
  let d := List.filter is_lecture d in
  flat_map (fun day =>
      let day_df := List.filter (fun r => str_eqb (Day r) day) d in
      flat_map (fun time =>
          match time with
          | Some t =>
              let time_df := List.filter (fun r => bool_decide (Time r = Some t)) day_df in
              if (1 <? length time_df)%nat
              then [(day, t, List.map Course time_df)] else []
          | None => []
          end)
        (unique (List.map Time day_df)))
    (unique (List.map Day d)).

Definition conflict_line (c : pystr * time * list pystr) : pystr :=
  let '(day, t, courses) := c in
  U "- " ++ day ++ U " at " ++ _format_time (Some t) ++ U ": "
  ++ join (U ", ") courses ++ [nl].

Definition schedule_conflict (d : DataFrame) : pystr :=
  match conflicts d with
  | [] => U "No schedule conflicts found."
  | cs =>
      strip (fold_left (fun response c => response ++ conflict_line c) cs
               (U "⚠️ Schedule conflicts:" ++ [nl]))
  end.

Definition teacher_schedule (teacher : value) (d : DataFrame) : pystr :=
  match teacher with
  | VStr (c0 :: cs) =>
      let teacher := c0 :: cs in
      let d := List.filter (fun r => str_eqb (Teacher r) teacher && is_lecture r) d in
      match d with
      | _ :: _ =>
          strip (append_lines (U "👨‍🏫 " ++ teacher ++ U "'s teaching schedule:" ++ [nl])
            (fun r => bool_decide (Time r <> None) && nonempty (Day r))
            (fun r => U "- " ++ Course r ++ U " on " ++ Day r ++ U " at "
                      ++ _format_time (Time r) ++ U " in room " ++ Room r ++ [nl]) d)
      | [] => U "No schedule found for " ++ teacher ++ U "."
      end
  | _ => U "Which teacher's schedule would you like to know about?"
  end.

Definition course_availability (course : value) (courses : PyDict.t pystr) : pystr :=
  match course with
  | VStr (c0 :: cs) =>
      let course := c0 :: cs in
      if existsb (str_eqb course) (PyDict.values courses)
      then U "✅ " ++ course ++ U " is available this semester."
      else U "❌ " ++ course ++ U " is not available this semester."
  | _ => U "Which course are you checking?"
  end.

Definition section_info (course : value) (courses : PyDict.t pystr) : pystr :=
  match course with
  | VStr (c0 :: cs) =>
      let course := c0 :: cs in
      match List.filter (fun c => contains c course) (PyDict.values courses) with
      | [] => U "No sections found for " ++ course ++ U "."
      | sections => U "📚 Available sections: " ++ join (U ", ") sections
      end
  | _ => U "Which course's sections would you like?"
  end.

(** [generate_response]: the turn is recorded first, then the intent decides.
    [now] is the clock's reading and [rnd] the draw of [random.choice]. *)
Definition generate_response (self : UniversityChatbot) (text : pystr)
    (ents : entities) (now : Z) (rnd : nat) : pystr * UniversityChatbot :=
  let intent := predict_intent text in
  let c := _update_context (ctx self) text intent ents now in
  let self := set_ctx self c in
  let on i := String.eqb intent i in
  let response :=
    if on "greeting" then
      choice rnd [U "Merhaba! 📚 How can I assist you today?";
                  U "Hi! Ready to help with your schedule. 😊"]
    else if on "goodbye" then choice rnd [U "Görüşürüz! 👋"; U "Bye! Take care! 😊"]
    else if on "thanks" then choice rnd [U "Rica ederim! 😊"; U "You're welcome!"]
    else if on "class_schedule" then
      class_schedule (por (dget ents "course") (last_course c))
        (por (dget ents "day") (last_day c)) (df self)
    else if on "exam_info" then
      exam_info (por (dget ents "course") (last_course c)) (dget ents "exam_type") (df self)
    else if on "teacher_info" then
      teacher_info (por (dget ents "teacher") (last_teacher c)) (df self)
    else if on "room_info" then
      room_info (por (dget ents "course") (last_course c))
        (por (dget ents "day") (last_day c)) (df self)
    else if on "daily_schedule" then
      daily_schedule (por (dget ents "day") (last_day c)) (df self)
    else if on "schedule_conflict" then schedule_conflict (df self)
    else if on "teacher_schedule" then
      teacher_schedule (por (dget ents "teacher") (last_teacher c)) (df self)
    else if on "course_availability" then
      course_availability (por (dget ents "course") (last_course c)) (normalized_courses self)
    else if on "section_info" then
      section_info (por (dget ents "course") (last_course c)) (normalized_courses self)
    else if on "academic_calendar" then
      U "📅 Academic calendar: Please check the university website for exact dates."
    else if on "smalltalk_weather" then
      choice rnd [U "Hava durumu? ☀️ Check your window or a weather app!";
                  U "Weather? I’m just predict sunny vibes! 😎"]
    else if on "smalltalk_name" then
      U "I'm Unibot, your friendly university schedule assistant! 😊"
    else U "Sorry, I didn’t understand. Could you clarify?" in
  (response, self).

End Chatbot.

(** ** The loader's time columns ([data_loader2.py]) *)

Module Loader.
Section Loader.
Context `{B : Backend}.

(** [try: body except Exception: return handler] *)
Definition try_except {A} (body : pyres A) (handler : A) : pyres A :=
  match body with
  | Ok a => Ok a
  | Raise => Ok handler
  end.

Definition clean_time (x : cell) : pystr :=
  match x with
  | CStr x =>
      if nonempty (strip x) then
        let x := replace_char 46 58 x in
        if contains x (U "-") then strip (split_first 45 x) else x
      else []
  | CObj => []
  end.

Definition to_time_obj (time_str : pystr) : pyres (option time) :=
  match time_str with
  | [] => Ok None
  | _ =>
      try_except
        (do dt <- to_datetime HMS time_str;
         match dt with
         | Some result => Ok (Some result)
         | None =>
             do dt <- to_datetime HM time_str;
             match dt with
             | Some result => Ok (Some result)
             | None => Ok None
             end
         end)
        None
  end.

(** What [load_schedule_data] leaves in a cell of [Time] or [Exam Time]. *)
Definition load_time_cell (x : cell) : pyres (option time) := to_time_obj (clean_time x).

(** [df[col].apply(f)] *)
Fixpoint apply_column {A R} (f : A -> pyres R) (col : list A) : pyres (list R) :=
  match col with
  | [] => Ok []
  | x :: r => do y <- f x; do ys <- apply_column f r; Ok (y :: ys)
  end.

Definition load_time_column (col : list cell) : pyres (list (option time)) :=
  do cleaned <- apply_column (fun x => Ok (clean_time x)) col;
  apply_column to_time_obj cleaned.

End Loader.
End Loader.

(** ** A stub backend

    Stand-ins for the libraries, used to run the program on concrete data:
    lower-casing of the code points below U+0180 (Basic Latin, Latin-1 and
    Latin Extended-A, which hold the Turkish letters), a keyword classifier,
    an all-or-nothing scorer, the two time formats read digit by digit, and
    pipelines that find nothing. *)

Module Stub.

Definition lower_char (c : N) : pystr :=
  if (65 <=? c) && (c <=? 90) then [c + 32]
  else if (192 <=? c) && (c <=? 222) && negb (c =? 215) then [c + 32]
  else if c =? 304 then [105; 775]
  else if c =? 376 then [255]
  else if ((256 <=? c) && (c <=? 303)) || ((306 <=? c) && (c <=? 311))
          || ((330 <=? c) && (c <=? 375))
       then (if N.even c then [c + 1] else [c])
  else if ((313 <=? c) && (c <=? 328)) || ((377 <=? c) && (c <=? 382))
       then (if N.odd c then [c + 1] else [c])
  else [c].

Definition lower_latin (s : pystr) : pystr := flat_map lower_char s.

Definition classify_kw (t : pystr) : string :=
  if contains t (U "conflict") then "schedule_conflict"
  else if contains t (U "exam") then "exam_info"
  else if contains t (U "when") then "class_schedule"
  else "unknown".

Definition ratio (q c : pystr) : Z := if str_eqb q c then 100%Z else 0%Z.

Definition digit (c : N) : option N :=
  if (48 <=? c) && (c <=? 57) then Some (c - 48) else None.

(** One numeric directive: two digits when they read a value up to [hi],
    else one digit. *)
Definition field (hi : N) (s : pystr) : option (N * pystr) :=
  match s with
  | c1 :: c2 :: r =>
      match digit c1, digit c2 with
      | Some d1, Some d2 =>
          if 10 * d1 + d2 <=? hi then Some (10 * d1 + d2, r) else Some (d1, c2 :: r)
      | Some d1, None => Some (d1, c2 :: r)
      | None, _ => None
      end
  | [c1] => option_map (fun d => (d, [])) (digit c1)
  | [] => None
  end.

Definition colon (s : pystr) : option pystr :=
  match s with
  | 58 :: r => Some r
  | _ => None
  end.

Definition strptime (f : time_format) (s : pystr) : option time :=
  '(h, s) ← field 23 s;
  s ← colon s;
  '(m, s) ← field 59 s;
  match f, s with
  | HM, [] => Some (mk_time h m 0)
  | HMS, _ =>
      s ← colon s;
      '(sec, s) ← field 59 s;
      match s with
      | [] => Some (mk_time h m sec)
      | _ => None
      end
  | _, _ => None
  end.

Definition backend : Backend := {|
  lower := lower_latin;
  classify := classify_kw;
  token_sort_ratio := ratio;
  to_datetime := fun f s => Ok (strptime f s);
  nlp := fun _ _ => mk_doc [] [];
  matcher := fun _ _ => []
|}.

End Stub.

Example stub_lower : Stub.lower_latin (U "DOÇ. İpek ŞAHİN") = U "doç. i̇pek şahi̇n".
Proof. reflexivity. Qed.

Example stub_range :
  @Loader.load_time_cell Stub.backend (CStr (U "08:00-10:00")) = Ok (Some (mk_time 8 0 0)).
Proof. reflexivity. Qed.

Example stub_dots :
  @Loader.load_time_cell Stub.backend (CStr (U "13.30")) = Ok (Some (mk_time 13 30 0)).
Proof. reflexivity. Qed.

(** ** The loader's column check ([load_schedule_data]) *)

Definition required_columns : list pystr :=
  [U "Course"; U "Teacher"; U "Day"; U "Time"; U "Room"; U "Exam Type"; U "Exam Date";
   U "Exam Time"].

(** [[col for col in required_columns if col not in df.columns]] *)
Definition missing_columns (columns : list pystr) : list pystr :=
  List.filter (fun col => negb (existsb (str_eqb col) columns)) required_columns.

(** The message of the [KeyError] the loader raises for the columns of a
    sheet; [None] when the check passes. *)
Definition column_error (columns : list pystr) : option pystr :=
  match missing_columns columns with
  | [] => None
  | missing => Some (U "Missing required columns in Excel file: " ++ join (U ", ") missing)
  end.

(** ** Readings of the specification and auxiliary notions *)

(** The value a branch works with: [entities.get(k) or context[last_k]],
    read after the turn has been recorded. *)
Definition operative (ents : entities) (k : string) (last : value) : value :=
  por (dget ents k) (dget_or ents k last).

(** The specification's reading of the loop: only the first prefix that
    matches is removed. *)
Fixpoint strip_first_of (prefixes : list pystr) (name : pystr) : pystr :=
  match prefixes with
  | [] => name
  | p :: r =>
      if startswith name p then strip (drop (length p) name)
      else strip_first_of r name
  end.

Definition strip_first_title (name : pystr) : pystr := strip_first_of title_prefixes name.

(** The prefixes the loop removes, in the order it removes them. *)
Fixpoint removed_from (prefixes : list pystr) (no_title : pystr) : list pystr :=
  match prefixes with
  | [] => []
  | p :: r =>
      if startswith no_title p then p :: removed_from r (strip_prefix no_title p)
      else removed_from r no_title
  end.

Definition removed_titles (name : pystr) : list pystr := removed_from title_prefixes name.

(** One removal: the prefix is cut off the start and the rest trimmed. *)
Definition cut_title (no_title prefix : pystr) : pystr :=
  strip (drop (length prefix) no_title).

(** The loop over the prefixes, told step by step: [title_loop ps n removed r]
    when trying the prefixes [ps] in order on [n], cutting each one found at
    the start of what is left and passing over the others, removes [removed]
    and leaves [r]. *)
Inductive title_loop : list pystr -> pystr -> list pystr -> pystr -> Prop :=
  | title_loop_done n : title_loop [] n [] n
  | title_loop_cut p ps n removed r :
      startswith n p = true ->
      title_loop ps (cut_title n p) removed r ->
      title_loop (p :: ps) n (p :: removed) r
  | title_loop_pass p ps n removed r :
      startswith n p = false ->
      title_loop ps n removed r ->
      title_loop (p :: ps) n removed r.

(** A teacher that is entered in the vocabulary under key [k]. *)
Definition enters_as `{B : Backend} (k : pystr) (teacher : pystr) : bool :=
  negb (str_eqb teacher (U "-")) && str_eqb (no_title_key teacher) k.

(** The specification's reading of the round trip: the title, that is the
    first matching prefix, is stripped and the remainder normalised. *)
Definition round_trip_key `{B : Backend} (name : pystr) : pystr :=
  _normalize_text (strip_first_title name).

(** The specification's reading of the stage: each unset field is filled on
    its own from the most recent interaction that has it. *)
Definition backfill_field (k : string) (newest_first : list interaction)
    (e : entities) : entities :=
  if truthy (dget e k) then e
  else match List.find (fun i => truthy (dget (i_entities i) k)) newest_first with
       | Some i => <[k := dget (i_entities i) k]> e
       | None => e
       end.

Definition backfill_independent (followup : bool) (c : context) (e : entities) : entities :=
  if followup || negb (truthy (dget e "course") || truthy (dget e "teacher"))
  then backfill_field "course" (rev (history c)) (backfill_field "teacher" (rev (history c)) e)
  else e.

(** An interaction at which the loop stops: it has a field the entities lack. *)
Definition offers (e : entities) (i : interaction) : bool :=
  (negb (truthy (dget e "teacher")) && truthy (dget (i_entities i) "teacher"))
  || (negb (truthy (dget e "course")) && truthy (dget (i_entities i) "course")).

(** One turn of the chat loop of [main]: extract, then respond. *)
Definition turn `{B : Backend} (self : UniversityChatbot) (text : pystr) (now : Z)
    (rnd : nat) : pyres (pystr * UniversityChatbot) :=
  do ents <- extract_entities self text;
  Ok (generate_response self text ents now rnd).

(** Every key of the first dictionary is a key of the second. *)
Definition keeps_keys (e e' : entities) : Prop :=
  forall k, is_Some (e !! k) -> is_Some (e' !! k).

(** The intent labels [generate_response] has a branch for. *)
Definition known_intents : list string :=
  ["greeting"; "goodbye"; "thanks"; "class_schedule"; "exam_info"; "teacher_info";
   "room_info"; "daily_schedule"; "schedule_conflict"; "teacher_schedule";
   "course_availability"; "section_info"; "academic_calendar"; "smalltalk_weather";
   "smalltalk_name"]%string.

(** The answer of a turn, when the turn returns. *)
Definition answer (r : pyres (pystr * UniversityChatbot)) : pyres pystr :=
  match r with
  | Ok (response, _) => Ok response
  | Raise => Raise
  end.

(** The stub backend with a classifier that answers one fixed label. *)
Definition stub_with_intent (label : string) : Backend := {|
  lower := Stub.lower_latin;
  classify := fun _ => label;
  token_sort_ratio := Stub.ratio;
  to_datetime := fun f s => Ok (Stub.strptime f s);
  nlp := fun _ _ => mk_doc [] [];
  matcher := fun _ _ => []
|}.

(** What a token contributes to each of the three passes. *)
Definition weekday_of `{B : Backend} (tok : pystr * pystr) : option value :=
  VStr <$> PyDict.get (lower (fst tok)) turkish_days.

Definition building_of (tok : pystr * pystr) : option value :=
  if existsb (str_eqb (fst tok)) buildings then Some (VStr (fst tok)) else None.

Definition exam_type_of `{B : Backend} (l : lang) (tok : pystr * pystr) : option value :=
  if existsb (str_eqb (lower (snd tok))) (exam_keywords l)
  then Some (VStr (lower (snd tok))) else None.

(** ** Sample data *)

Definition fresh_context : context := mk_context [] VNone VNone VNone.

Definition stub_bot (d : DataFrame) (c : context) : UniversityChatbot :=
  set_ctx (@init Stub.backend d) c.

Definition cs101_table : DataFrame :=
  [mk_row (U "CS101") (U "Dr. Ali Veli") (U "Monday") (Some (mk_time 9 0 0)) (U "201")
     (U "Lecture") None None].

Definition two_titles_table : DataFrame :=
  [mk_row (U "CS101") (U "Dr. Ali Veli") (U "Monday") None (U "201") (U "Lecture") None None;
   mk_row (U "CS102") (U "Prof. Dr. Ali Veli") (U "Friday") None (U "202") (U "Lecture") None None].

Definition stacked_titles_table : DataFrame :=
  [mk_row (U "CS101") (U "Prof. Dr. Dr. Ali Veli") (U "Monday") None (U "201") (U "Lecture")
     None None].

Definition titled_table : DataFrame :=
  [mk_row (U "CS101") (U "Dr. Ali Veli") (U "Monday") None (U "201") (U "Lecture") None None;
   mk_row (U "CS102") (U "Prof. Dr. Ayşe Kaya") (U "Friday") None (U "202") (U "Lecture") None None].

Definition ten : time := mk_time 10 0 0.

Definition tuesday_table : DataFrame :=
  [mk_row (U "CS101") (U "Dr. Ali Veli") (U "Tuesday") (Some ten) (U "201") (U "Lecture") None None;
   mk_row (U "MATH201") (U "Prof. Dr. Ayşe Kaya") (U "Tuesday") (Some ten) (U "202") (U "Lecture") None None].

(** One course entered twice for the same hour, in two rooms. *)
Definition same_course_table : DataFrame :=
  [mk_row (U "CS101") (U "Dr. Ali Veli") (U "Tuesday") (Some ten) (U "201") (U "Lecture") None None;
   mk_row (U "CS101") (U "Dr. Ali Veli") (U "Tuesday") (Some ten) (U "202") (U "Lecture") None None].

Definition undated_midterm : DataFrame :=
  [mk_row (U "CS101") (U "Dr. Ali Veli") [] None (U "201") (U "Midterm") None None].

Definition course_turn : interaction :=
  mk_interaction (U "When is CS101?") "class_schedule"
    (<["course" := VStr (U "CS101")]> empty_entities) 1.

Definition teacher_turn : interaction :=
  mk_interaction (U "What does Dr. Ali Veli teach?") "teacher_info"
    (<["teacher" := VStr (U "Dr. Ali Veli")]> empty_entities) 2.

Definition two_turns : context :=
  mk_context [course_turn; teacher_turn] VNone (VStr (U "Dr. Ali Veli")) VNone.

Definition unassigned_table : DataFrame :=
  [mk_row (U "CS101") (U "-") (U "Monday") None (U "201") (U "Lecture") None None;
   mk_row (U "CS102") (U "Dr. Ali Veli") (U "Friday") None (U "202") (U "Lecture") None None].

Definition sections_table : DataFrame :=
  [mk_row (U "CS101") (U "Dr. Ali Veli") (U "Monday") None (U "201") (U "Lecture") None None;
   mk_row (U "CS101 Lab") (U "Dr. Ali Veli") (U "Friday") None (U "202") (U "Lecture") None None;
   mk_row (U "MATH201") (U "-") (U "Friday") None (U "203") (U "Lecture") None None].

(** * Properties *)

(** ** Strings, dictionaries and columns *)

Lemma str_eqb_true (a b : pystr) : str_eqb a b = true <-> a = b.
Proof. unfold str_eqb. apply bool_decide_eq_true. Qed.

Lemma str_eqb_false (a b : pystr) : str_eqb a b = false <-> a <> b.
Proof. unfold str_eqb. apply bool_decide_eq_false. Qed.

Lemma str_eqb_refl (a : pystr) : str_eqb a a = true.
Proof. by apply str_eqb_true. Qed.

Lemma In_unique {A} `{EqDecision A} (x : A) (l : list A) : In x (unique l) <-> In x l.
Proof.
  induction l as [|a l IH]; simpl; [tauto|].
  rewrite filter_In, IH, negb_true_iff, bool_decide_eq_false.
  destruct (decide (x = a)) as [->|Hne]; [tauto|].
  split; [intros [Heq|[Hin _]]; auto | intros [Heq|Hin]; auto].
Qed.

Lemma unique_constant {A} `{EqDecision A} (c : A) (l : list A) :
  (forall x, In x l -> x = c) -> (length (unique l) <= 1)%nat.
Proof.
  intros Hall. destruct l as [|x r]; simpl; [lia|].
  assert (Hnone : List.filter (fun y => negb (bool_decide (y = x))) (unique r) = []).
  { assert (Hr : forall y, In y (unique r) -> y = x).
    { intros y Hy. rewrite In_unique in Hy.
      transitivity c; [apply Hall; by right | symmetry; apply Hall; by left]. }
    induction (unique r) as [|y u IH]; simpl; [done|].
    rewrite (Hr y) by (by left). rewrite bool_decide_eq_true_2 by done. simpl.
    apply IH. intros z Hz. apply Hr. by right. }
  rewrite Hnone. simpl. lia.
Qed.

(** ** The conversation context *)

Section ContextProps.

Lemma update_context_history (c : context) q i (e : entities) now :
  history (_update_context c q i e now)
  = last_n 5 (history c ++ [mk_interaction q i e now]).
Proof.
  unfold _update_context, last_n; simpl.
  destruct (5 <? _)%nat eqn:Hlen; [done|].
  apply Nat.ltb_ge in Hlen.
  replace (_ - 5)%nat with 0%nat by lia. done.
Qed.

(** C6: the history never holds more than five interactions after a turn is
    recorded, it is the last five of the old history followed by the new
    interaction, and recording into a full history drops exactly the oldest
    entry. *)
Theorem update_context_history_bounded (c : context) q i (e : entities) now :
  (length (history (_update_context c q i e now)) <= 5)%nat
  /\ history (_update_context c q i e now)
     = last_n 5 (history c ++ [mk_interaction q i e now])
  /\ (length (history c) = 5%nat ->
      history (_update_context c q i e now)
      = drop 1 (history c) ++ [mk_interaction q i e now]).
Proof.
  rewrite update_context_history. unfold last_n.
  split; [|split; [done|]].
  - rewrite length_drop. lia.
  - intros Hlen. rewrite length_app, Hlen. simpl.
    rewrite drop_app_le by lia. done.
Qed.

Lemma update_context_history_bounded_witness :
  history (_update_context
             (mk_context (List.map (fun n => mk_interaction [n] "thanks" ∅ 0) [1; 2; 3; 4; 5])
                VNone VNone VNone)
             [6] "thanks" ∅ 1)
  = List.map (fun n => mk_interaction [n] "thanks" ∅ 0) [2; 3; 4; 5]
    ++ [mk_interaction [6] "thanks" ∅ 1].
Proof.
  apply (proj2 (proj2 (update_context_history_bounded
    (mk_context (List.map (fun n => mk_interaction [n] "thanks" ∅ 0) [1; 2; 3; 4; 5])
       VNone VNone VNone) [6] "thanks" ∅ 1))).
  reflexivity.
Defined.

(** A key the entities do not carry leaves the remembered value alone. *)
Lemma update_context_sticky_when_key_missing (c : context) q i (e : entities) now :
  e !! "course" = None ->
  last_course (_update_context c q i e now) = last_course c.
Proof. intros He. unfold _update_context, dget_or; simpl. by rewrite He. Qed.

(** A key that is present always overwrites, also with [None]. *)
Lemma update_context_overwrites (c : context) q i (e : entities) now v :
  e !! "course" = Some v ->
  last_course (_update_context c q i e now) = v.
Proof. intros He. unfold _update_context, dget_or; simpl. by rewrite He. Qed.

(** C1: after a turn that named a course, a turn whose entities carry the
    key [course] with the value [None] (here a question about a teacher)
    resets the remembered course to [None]. *)
Theorem update_context_forgets_course :
  let c := mk_context [course_turn] (VStr (U "CS101")) VNone VNone in
  let e := <["teacher" := VStr (U "Dr. Ali Veli")]> empty_entities in
  dget e "course" = VNone
  /\ last_course c = VStr (U "CS101")
  /\ last_course (_update_context c (U "What does Dr. Ali Veli teach?") "teacher_info" e 2)
     = VNone.
Proof. vm_compute. done. Qed.

End ContextProps.

(** ** Response dispatch *)

Section DispatchProps.
Context `{B : Backend}.

Lemma operative_falsy (ents : entities) k last :
  truthy (dget ents k) = false -> truthy last = false ->
  truthy (operative ents k last) = false.
Proof.
  unfold operative, por, dget, dget_or.
  destruct (ents !! k) as [v|]; simpl; intros Hv Hl.
  - by rewrite Hv.
  - done.
Qed.

Lemma class_schedule_falsy (course day : value) (d : DataFrame) :
  truthy course = false ->
  class_schedule course day d = U "Which course's schedule would you like to know?".
Proof. by destruct course as [|[|c s]]. Qed.

Lemma generate_response_class_schedule self text (ents : entities) now rnd :
  predict_intent text = "class_schedule" ->
  fst (generate_response self text ents now rnd)
  = class_schedule (operative ents "course" (last_course (ctx self)))
      (operative ents "day" (last_day (ctx self))) (df self).
Proof. intros Hi. unfold generate_response. rewrite Hi. reflexivity. Qed.

Lemma generate_response_exam_info self text (ents : entities) now rnd :
  predict_intent text = "exam_info" ->
  fst (generate_response self text ents now rnd)
  = exam_info (operative ents "course" (last_course (ctx self)))
      (dget ents "exam_type") (df self).
Proof. intros Hi. unfold generate_response. rewrite Hi. reflexivity. Qed.

Lemma generate_response_schedule_conflict self text (ents : entities) now rnd :
  predict_intent text = "schedule_conflict" ->
  fst (generate_response self text ents now rnd) = schedule_conflict (df self).
Proof. intros Hi. unfold generate_response. rewrite Hi. reflexivity. Qed.

(** C7: a [class_schedule] query whose entities carry no course, asked while
    the context remembers none, is answered with the clarification
    prompt. *)
Theorem class_schedule_asks_for_course self text (ents : entities) now rnd :
  predict_intent text = "class_schedule" ->
  truthy (dget ents "course") = false ->
  truthy (last_course (ctx self)) = false ->
  fst (generate_response self text ents now rnd)
  = U "Which course's schedule would you like to know?".
Proof.
  intros Hi He Hl. rewrite generate_response_class_schedule by done.
  apply class_schedule_falsy. by apply operative_falsy.
Qed.

End DispatchProps.

Lemma class_schedule_asks_for_course_witness :
  fst (@generate_response Stub.backend (stub_bot [] fresh_context)
         (U "When is it?") empty_entities 0 0)
  = U "Which course's schedule would you like to know?".
Proof.
  apply (@class_schedule_asks_for_course Stub.backend); reflexivity.
Defined.

(** ** Fuzzy matching *)

Section FuzzyProps.
Context `{B : Backend}.

Lemma get_of_key {V} (d : PyDict.t V) (k : pystr) :
  In k (PyDict.keys d) -> exists v, PyDict.get k d = Some v.
Proof.
  induction d as [|[k' v'] d IH]; simpl; [done|].
  intros [Hk|Hk].
  - subst. rewrite str_eqb_refl. eauto.
  - destruct (str_eqb k' k); eauto.
Qed.

(** The running maximum kept by [max(..., key=score)]. *)
Lemma best_of_fold (score : pystr -> Z) (r : list pystr) (k0 : pystr) (seen : list pystr) :
  In k0 seen -> (forall k', In k' seen -> (score k' <= score k0)%Z) ->
  let best := fold_left (fun best k =>
                  if (snd best <? score k)%Z then (k, score k) else best)
                r (k0, score k0) in
  snd best = score (fst best)
  /\ In (fst best) (seen ++ r)
  /\ forall k', In k' (seen ++ r) -> (score k' <= snd best)%Z.
Proof.
  revert k0 seen. induction r as [|k r IH]; intros k0 seen Hin Hmax; simpl.
  - rewrite app_nil_r. auto.
  - destruct (score k0 <? score k)%Z eqn:Hlt.
    + apply Z.ltb_lt in Hlt.
      specialize (IH k (seen ++ [k])). rewrite <- app_assoc in IH. simpl in IH.
      apply IH.
      * apply in_or_app. right. by left.
      * intros k' Hk'. apply in_app_or in Hk' as [Hk'|[<-|[]]]; [|lia].
        specialize (Hmax k' Hk'). lia.
    + apply Z.ltb_ge in Hlt.
      specialize (IH k0 (seen ++ [k])). rewrite <- app_assoc in IH. simpl in IH.
      apply IH.
      * apply in_or_app. by left.
      * intros k' Hk'. apply in_app_or in Hk' as [Hk'|[<-|[]]]; [auto|lia].
Qed.

Lemma extractOne_best (query : pystr) (c : pystr) (r : list pystr) :
  exists k s, extractOne query (c :: r) = Ok (k, s)
    /\ s = token_sort_ratio query k
    /\ In k (c :: r)
    /\ forall k', In k' (c :: r) -> (token_sort_ratio query k' <= s)%Z.
Proof.
  unfold extractOne.
  destruct (best_of_fold (token_sort_ratio query) r c [c]) as (Hs & Hin & Hmax).
  - by left.
  - intros k' [<-|[]]. lia.
  - simpl in *.
    match goal with |- context [Ok ?b] => exists (fst b), (snd b) end.
    split; [by destruct (fold_left _ _ _)|]. auto.
Qed.

(** C5: on a non-empty text and a non-empty vocabulary the fuzzy matcher
    looks at a key of the highest score; below 70 it returns [None], from 70
    on it returns the name that key maps to. *)
Theorem fuzzy_match_threshold (text : pystr) (candidates : PyDict.t pystr) :
  text <> [] -> candidates <> [] ->
  exists k s,
    In k (PyDict.keys candidates)
    /\ s = token_sort_ratio (_normalize_text text) k
    /\ (forall k', In k' (PyDict.keys candidates) ->
          (token_sort_ratio (_normalize_text text) k' <= s)%Z)
    /\ ((s < 70)%Z -> fuzzy_match_entity text candidates = Ok VNone)
    /\ ((70 <= s)%Z ->
          exists v, PyDict.get k candidates = Some v
                    /\ fuzzy_match_entity text candidates = Ok (VStr v)).
Proof.
  intros Ht Hc.
  destruct candidates as [|[k0 v0] rest]; [done|].
  destruct (extractOne_best (_normalize_text text) k0 (PyDict.keys rest))
    as (k & s & Hex & Hs & Hin & Hmax).
  exists k, s. split; [exact Hin|]. split; [exact Hs|]. split; [exact Hmax|].
  unfold fuzzy_match_entity, fuzzy_match_entity_at.
  destruct text as [|c t]; [done|].
  change (PyDict.keys ((k0, v0) :: rest)) with (k0 :: PyDict.keys rest).
  rewrite Hex. simpl bind. simpl fst. simpl snd.
  split.
  - intros Hlt. apply Z.leb_gt in Hlt. by rewrite Hlt.
  - intros Hge. destruct (get_of_key ((k0, v0) :: rest) k Hin) as [v Hv].
    exists v. split; [exact Hv|].
    apply Z.leb_le in Hge. rewrite Hge. simpl in Hv. by rewrite Hv.
Qed.

(** Ties go to the key that comes first in the vocabulary. *)
Lemma extractOne_first_best (query : pystr) (pre : list pystr) (k : pystr) (post : list pystr) :
  (forall k', In k' pre -> (token_sort_ratio query k' < token_sort_ratio query k)%Z) ->
  (forall k', In k' post -> (token_sort_ratio query k' <= token_sort_ratio query k)%Z) ->
  extractOne query (pre ++ k :: post) = Ok (k, token_sort_ratio query k).
Proof.
  intros Hpre Hpost.
  assert (Hkeep : forall l b, (forall k', In k' l -> (token_sort_ratio query k' <= snd b)%Z) ->
            fold_left (fun best k => if (snd best <? token_sort_ratio query k)%Z
                                     then (k, token_sort_ratio query k) else best) l b = b).
  { induction l as [|x l IH]; intros b Hb; simpl; [done|].
    assert (Hx : (snd b <? token_sort_ratio query x)%Z = false)
      by (apply Z.ltb_ge, Hb; by left).
    rewrite Hx. apply IH. intros k' Hk'. apply Hb. by right. }
  assert (Hclimb : forall l b, (snd b < token_sort_ratio query k)%Z ->
            (forall k', In k' l -> (token_sort_ratio query k' < token_sort_ratio query k)%Z) ->
            fold_left (fun best k => if (snd best <? token_sort_ratio query k)%Z
                                     then (k, token_sort_ratio query k) else best)
              (l ++ k :: post) b = (k, token_sort_ratio query k)).
  { induction l as [|x l IH]; intros b Hb Hl; simpl.
    - assert (Hk : (snd b <? token_sort_ratio query k)%Z = true) by by apply Z.ltb_lt.
      rewrite Hk. apply Hkeep. simpl. exact Hpost.
    - destruct (snd b <? token_sort_ratio query x)%Z.
      + apply IH; [simpl; apply Hl; by left | intros; apply Hl; by right].
      + apply IH; [done | intros; apply Hl; by right]. }
  unfold extractOne. destruct pre as [|p pre]; simpl.
  - f_equal. apply Hkeep. simpl. exact Hpost.
  - f_equal. apply Hclimb; [simpl; apply Hpre; by left | intros; apply Hpre; by right].
Qed.

End FuzzyProps.

Lemma fuzzy_match_threshold_witness :
  exists k s,
    In k (PyDict.keys [(U "cs101", U "CS101"); (U "math201", U "MATH201")])
    /\ s = @token_sort_ratio Stub.backend (@_normalize_text Stub.backend (U "MATH201")) k
    /\ (forall k', In k' (PyDict.keys [(U "cs101", U "CS101"); (U "math201", U "MATH201")]) ->
          (@token_sort_ratio Stub.backend (@_normalize_text Stub.backend (U "MATH201")) k' <= s)%Z)
    /\ ((s < 70)%Z ->
          @fuzzy_match_entity Stub.backend (U "MATH201")
            [(U "cs101", U "CS101"); (U "math201", U "MATH201")] = Ok VNone)
    /\ ((70 <= s)%Z ->
          exists v, PyDict.get k [(U "cs101", U "CS101"); (U "math201", U "MATH201")] = Some v
                    /\ @fuzzy_match_entity Stub.backend (U "MATH201")
                         [(U "cs101", U "CS101"); (U "math201", U "MATH201")] = Ok (VStr v)).
Proof.
  apply (@fuzzy_match_threshold Stub.backend (U "MATH201")
           [(U "cs101", U "CS101"); (U "math201", U "MATH201")]); discriminate.
Defined.

Example fuzzy_hit :
  @fuzzy_match_entity Stub.backend (U "MATH201")
    [(U "cs101", U "CS101"); (U "math201", U "MATH201")] = Ok (VStr (U "MATH201")).
Proof. reflexivity. Qed.

Example fuzzy_miss :
  @fuzzy_match_entity Stub.backend (U "physics")
    [(U "cs101", U "CS101"); (U "math201", U "MATH201")] = Ok VNone.
Proof. reflexivity. Qed.

Example fuzzy_empty_vocabulary : @fuzzy_match_entity Stub.backend (U "physics") [] = Raise.
Proof. reflexivity. Qed.

(** ** Trimming *)

Section StripProps.

Lemma lstrip_app_nonspace (l : pystr) (a : N) (m : pystr) :
  is_space a = false -> lstrip (l ++ a :: m) = lstrip l ++ a :: m.
Proof.
  intros Ha. induction l as [|c l IH]; simpl.
  - by rewrite Ha.
  - destruct (is_space c); [exact IH|done].
Qed.

Lemma rstrip_cons_nonspace (a : N) (s : pystr) :
  is_space a = false -> rstrip (a :: s) = a :: rstrip s.
Proof.
  intros Ha. unfold rstrip. simpl rev.
  rewrite lstrip_app_nonspace by done.
  by rewrite rev_app_distr.
Qed.

Lemma strip_cons_nonspace (a : N) (s : pystr) :
  is_space a = false -> strip (a :: s) = a :: rstrip s.
Proof.
  intros Ha. unfold strip. rewrite rstrip_cons_nonspace by done.
  simpl. by rewrite Ha.
Qed.

Lemma strip_headed (h s : pystr) :
  match h with a :: _ => is_space a = false | [] => False end ->
  strip (h ++ s) = rstrip (h ++ s).
Proof.
  destruct h as [|a h]; [done|]. intros Ha. simpl app.
  rewrite strip_cons_nonspace by done. by rewrite rstrip_cons_nonspace.
Qed.

Lemma rstrip_line (m : pystr) (b : N) :
  is_space b = false -> rstrip (m ++ [b; nl]) = m ++ [b].
Proof.
  intros Hb. unfold rstrip. rewrite rev_app_distr. simpl.
  rewrite Hb. simpl. by rewrite rev_involutive.
Qed.

Lemma rstrip_hd (h s : pystr) :
  match h with a :: _ => is_space a = false | [] => False end ->
  hd_error (rstrip (h ++ s)) = hd_error h.
Proof.
  destruct h as [|a h]; [done|]. intros Ha. simpl app.
  by rewrite rstrip_cons_nonspace.
Qed.

Lemma lstrip_suffix (s : pystr) : exists a, s = a ++ lstrip s.
Proof.
  induction s as [|c s [a IH]]; simpl; [by exists []|].
  destruct (is_space c); [|by exists []].
  exists (c :: a). simpl. by rewrite <- IH.
Qed.

Lemma rstrip_prefix (s : pystr) : exists b, s = rstrip s ++ b.
Proof.
  unfold rstrip. destruct (lstrip_suffix (rev s)) as [a Ha].
  exists (rev a). rewrite <- rev_app_distr, <- Ha. by rewrite rev_involutive.
Qed.

(** Trimming keeps a contiguous piece of the string. *)
Lemma strip_infix (s : pystr) : exists a b, s = a ++ strip s ++ b.
Proof.
  unfold strip. destruct (rstrip_prefix s) as [b Hb].
  destruct (lstrip_suffix (rstrip s)) as [a Ha].
  exists a, b. rewrite app_assoc, <- Ha. exact Hb.
Qed.

End StripProps.

(** ** Title stripping *)

Section TitleProps.

Lemma startswith_app (s p : pystr) :
  startswith s p = true <-> exists rest, s = p ++ rest.
Proof.
  revert s. induction p as [|a p IH]; intros s; simpl.
  - split; eauto.
  - destruct s as [|b s].
    + split; [done|]. intros [rest Hr]. discriminate Hr.
    + rewrite andb_true_iff, N.eqb_eq, IH. split.
      * intros [-> [rest ->]]. eauto.
      * intros [rest Hr]. injection Hr as -> ->. eauto.
Qed.

(** A turn of the loop either leaves the name alone or cuts the prefix off
    its start and trims what is left. *)
Lemma strip_prefix_cases (no_title p : pystr) :
  (startswith no_title p = false /\ strip_prefix no_title p = no_title)
  \/ (exists rest, no_title = p ++ rest /\ strip_prefix no_title p = strip rest).
Proof.
  unfold strip_prefix. destruct (startswith no_title p) eqn:Hs; [right|left; done].
  apply startswith_app in Hs as [rest ->]. exists rest. split; [done|].
  by rewrite drop_app_length.
Qed.

Lemma strip_none (ps : list pystr) (name : pystr) :
  (forall q, In q ps -> startswith name q = false) ->
  fold_left strip_prefix ps name = name /\ removed_from ps name = [].
Proof.
  induction ps as [|p ps IH]; intros Hno; simpl; [done|].
  assert (Hsp : strip_prefix name p = name)
    by (unfold strip_prefix; rewrite (Hno p); [done | by left]).
  rewrite Hsp, (Hno p) by (by left).
  apply IH. intros q Hq. apply Hno. by right.
Qed.

Lemma strip_one (before : list pystr) (p : pystr) (after : list pystr) (name : pystr) :
  (forall q, In q before -> startswith name q = false) ->
  startswith name p = true ->
  (forall q, In q after -> startswith (strip (drop (length p) name)) q = false) ->
  fold_left strip_prefix (before ++ p :: after) name = strip (drop (length p) name)
  /\ removed_from (before ++ p :: after) name = [p].
Proof.
  intros Hb Hp Ha.
  induction before as [|b before IH]; simpl.
  - assert (Hsp : strip_prefix name p = strip (drop (length p) name))
      by (unfold strip_prefix; by rewrite Hp).
    rewrite Hp, Hsp.
    destruct (strip_none after (strip (drop (length p) name)) Ha) as [-> ->]. done.
  - assert (Hsp : strip_prefix name b = name)
      by (unfold strip_prefix; rewrite (Hb b); [done | by left]).
    rewrite Hsp, (Hb b) by (by left).
    apply IH. intros q Hq. apply Hb. by right.
Qed.

(** What the loop leaves is a contiguous piece of the name. *)
Lemma strip_fold_infix (ps : list pystr) (name : pystr) :
  exists a b, name = a ++ fold_left strip_prefix ps name ++ b.
Proof.
  revert name. induction ps as [|p ps IH]; intros name; simpl.
  - exists [], []. by rewrite app_nil_r.
  - destruct (IH (strip_prefix name p)) as (a & b & Hab).
    destruct (strip_prefix_cases name p) as [[_ Hsame]|(rest & Hname & Hcut)].
    + rewrite Hsame in Hab. rewrite Hsame. eauto.
    + destruct (strip_infix rest) as (a' & b' & Hrest).
      exists (p ++ a' ++ a), (b ++ b').
      rewrite Hname at 1. rewrite Hrest at 1. rewrite <- Hcut.
      rewrite Hab at 1. by rewrite <- !app_assoc.
Qed.

Lemma removed_sublist (ps : list pystr) (name : pystr) :
  sublist (removed_from ps name) ps.
Proof.
  revert name. induction ps as [|p ps IH]; intros name; simpl.
  - constructor.
  - destruct (startswith name p).
    + apply sublist_skip, IH.
    + apply sublist_cons, IH.
Qed.

Lemma strip_prefix_cut (n p : pystr) :
  strip_prefix n p = if startswith n p then cut_title n p else n.
Proof. reflexivity. Qed.

(** The loop does what its step-by-step account says. *)
Lemma title_loop_runs (ps : list pystr) (n : pystr) :
  title_loop ps n (removed_from ps n) (fold_left strip_prefix ps n).
Proof.
  revert n. induction ps as [|p ps IH]; intros n; cbn [fold_left removed_from];
    [constructor|].
  rewrite !strip_prefix_cut. destruct (startswith n p) eqn:Hs.
  - apply title_loop_cut; [exact Hs|apply IH].
  - apply title_loop_pass; [exact Hs|apply IH].
Qed.

(** The account leaves no choice. *)
Lemma title_loop_unique (ps : list pystr) (n : pystr) (removed : list pystr) (r : pystr) :
  title_loop ps n removed r ->
  removed = removed_from ps n /\ r = fold_left strip_prefix ps n.
Proof.
  induction 1 as [n|p ps n removed r Hs _ [IHrem IHr]|p ps n removed r Hs _ [IHrem IHr]];
    cbn [fold_left removed_from]; [split; reflexivity| |];
    rewrite !strip_prefix_cut, Hs; [|split; assumption].
  split; [f_equal|]; assumption.
Qed.

(** What is left is the name with the removed prefixes cut off one after the
    other. *)
Lemma strip_fold_cuts (ps : list pystr) (n : pystr) :
  fold_left strip_prefix ps n = fold_left cut_title (removed_from ps n) n.
Proof.
  revert n. induction ps as [|p ps IH]; intros n; cbn [fold_left removed_from];
    [reflexivity|].
  rewrite !strip_prefix_cut. destruct (startswith n p) eqn:Hs; cbn [fold_left]; apply IH.
Qed.

(** The first matching prefix is cut, and the loop goes on with the later
    prefixes on what is left. *)
Lemma strip_first_then (before : list pystr) (p : pystr) (rest : list pystr) (name : pystr) :
  (forall q, In q before -> startswith name q = false) ->
  startswith name p = true ->
  fold_left strip_prefix (before ++ p :: rest) name
  = fold_left strip_prefix rest (cut_title name p)
  /\ removed_from (before ++ p :: rest) name = p :: removed_from rest (cut_title name p).
Proof.
  intros Hb Hp.
  induction before as [|b before IH]; cbn [app fold_left removed_from];
    rewrite !strip_prefix_cut.
  - rewrite Hp. split; reflexivity.
  - rewrite (Hb b) by (left; reflexivity).
    apply IH. intros q Hq. apply Hb. right. exact Hq.
Qed.

(** C4 (amended): every prefix of the list is tried once, in order, on what
    is left of the name, and each one found at its start is cut off; the
    prefixes removed form a subsequence of the list (at most five), each
    turn cuts at the start of the remainder only, so that what is left is a
    contiguous piece of the name; a name that starts with none of the
    prefixes is unchanged, a name whose remainder after its first matching
    prefix starts with no later one loses exactly that prefix, and a name
    whose remainder starts with a later prefix loses that one too.  The
    result is the one the step-by-step account of the loop fixes: the name
    with all the removed prefixes cut off in turn. *)
Theorem strip_titles_removes_leading_titles (name : pystr) :
  sublist (removed_titles name) title_prefixes
  /\ (length (removed_titles name) <= 5)%nat
  /\ (forall no_title p,
        (startswith no_title p = false /\ strip_prefix no_title p = no_title)
        \/ (exists rest, no_title = p ++ rest /\ strip_prefix no_title p = strip rest))
  /\ (exists a b, name = a ++ strip_titles name ++ b)
  /\ ((forall q, In q title_prefixes -> startswith name q = false) ->
      strip_titles name = name /\ removed_titles name = [])
  /\ (forall before p after,
        title_prefixes = before ++ p :: after ->
        (forall q, In q before -> startswith name q = false) ->
        startswith name p = true ->
        (forall q, In q after -> startswith (strip (drop (length p) name)) q = false) ->
        strip_titles name = strip (drop (length p) name)
        /\ removed_titles name = [p])
  /\ (forall before p mid q after,
        title_prefixes = before ++ p :: mid ++ q :: after ->
        (forall x, In x before -> startswith name x = false) ->
        startswith name p = true ->
        (forall x, In x mid -> startswith (strip (drop (length p) name)) x = false) ->
        startswith (strip (drop (length p) name)) q = true ->
        (forall x, In x after ->
           startswith (strip (drop (length q) (strip (drop (length p) name)))) x = false) ->
        strip_titles name = strip (drop (length q) (strip (drop (length p) name)))
        /\ removed_titles name = [p; q])
  /\ title_loop title_prefixes name (removed_titles name) (strip_titles name)
  /\ (forall removed r,
        title_loop title_prefixes name removed r ->
        removed = removed_titles name /\ r = strip_titles name)
  /\ strip_titles name
     = fold_left (fun no_title p => strip (drop (length p) no_title)) (removed_titles name) name.
Proof.
  unfold strip_titles, removed_titles. split; [apply removed_sublist|].
  split; [|split; [apply strip_prefix_cases|split; [apply strip_fold_infix|]]].
  - change 5%nat with (length title_prefixes).
    apply sublist_length, removed_sublist.
  - split; [apply strip_none|]. split; [intros before p after ->; apply strip_one|].
    split; [|split; [apply title_loop_runs|split; [apply title_loop_unique|]]].
    + intros before p mid q after -> Hb Hp Hm Hq Ha.
      destruct (strip_first_then before p (mid ++ q :: after) name Hb Hp) as [-> ->].
      destruct (strip_one mid q after (cut_title name p) Hm Hq Ha) as [-> ->].
      split; reflexivity.
    + apply strip_fold_cuts.
Qed.

Lemma strip_titles_removes_leading_titles_witness :
  strip_titles (U "Prof. Dr. Ali Veli") = strip (drop (length (U "Prof. Dr.")) (U "Prof. Dr. Ali Veli"))
  /\ removed_titles (U "Prof. Dr. Ali Veli") = [U "Prof. Dr."].
Proof.
  apply (proj1 (proj2 (proj2 (proj2 (proj2 (proj2
           (strip_titles_removes_leading_titles (U "Prof. Dr. Ali Veli")))))))
           [U "Doç. Dr."; U "Öğr. Gör. Dr."; U "Öğr. Gör."] (U "Prof. Dr.") [U "Dr."]).
  - reflexivity.
  - intros q [<-|[<-|[<-|[]]]]; reflexivity.
  - reflexivity.
  - intros q [<-|[]]; reflexivity.
Defined.

(** C4 (as stated) fails: two prefixes are removed from one name, where
    removing the first matching prefix alone would leave the second title. *)
Lemma strip_titles_removes_two_prefixes :
  strip_titles (U "Prof. Dr. Dr. Ali Veli") = U "Ali Veli"
  /\ removed_titles (U "Prof. Dr. Dr. Ali Veli") = [U "Prof. Dr."; U "Dr."]
  /\ strip_first_title (U "Prof. Dr. Dr. Ali Veli") = U "Dr. Ali Veli".
Proof. vm_compute. done. Qed.

Example strip_titles_inner_title_kept :
  strip_titles (U "Ali Dr. Veli") = U "Ali Dr. Veli".
Proof. reflexivity. Qed.

Example strip_titles_longest_first :
  strip_titles (U "Öğr. Gör. Dr. Ayşe Kaya") = U "Ayşe Kaya".
Proof. reflexivity. Qed.

End TitleProps.

(** ** The no-title vocabulary *)

Section VocabularyProps.
Context `{B : Backend}.

Lemma get_set_eq {V} (k : pystr) (v : V) (d : PyDict.t V) :
  PyDict.get k (PyDict.set k v d) = Some v.
Proof.
  induction d as [|[k0 v0] d IH]; simpl.
  - by rewrite str_eqb_refl.
  - destruct (str_eqb k0 k) eqn:Hk; simpl; rewrite Hk; [done|exact IH].
Qed.

Lemma get_set_ne {V} (k k' : pystr) (v : V) (d : PyDict.t V) :
  k <> k' -> PyDict.get k' (PyDict.set k v d) = PyDict.get k' d.
Proof.
  intros Hne. induction d as [|[k0 v0] d IH]; simpl.
  - apply str_eqb_false in Hne. by rewrite Hne.
  - destruct (str_eqb k0 k) eqn:Hk; simpl.
    + apply str_eqb_true in Hk. subst k0.
      apply str_eqb_false in Hne. by rewrite Hne.
    + destruct (str_eqb k0 k'); [done|exact IH].
Qed.

(** The last teacher entered under a key is the one the key maps to. *)
Lemma no_titles_of_get (teachers : list pystr) (k : pystr) :
  PyDict.get k (no_titles_of teachers) = List.find (enters_as k) (rev teachers).
Proof.
  induction teachers as [|t l IH] using rev_ind; [done|].
  unfold no_titles_of in *. rewrite fold_left_app, rev_unit. simpl.
  unfold enters_as at 1.
  destruct (str_eqb t (U "-")); simpl; [exact IH|].
  destruct (str_eqb (no_title_key t) k) eqn:Hk.
  - apply str_eqb_true in Hk. subst k. apply get_set_eq.
  - apply str_eqb_false in Hk. rewrite get_set_ne by done. exact IH.
Qed.

(** The stripped and normalised form of a teacher name other than the
    placeholder is a key of the no-title vocabulary, and the key maps to the
    last teacher, in order of first appearance in the table, that is entered
    under it. *)
Lemma no_title_vocabulary_lookup (d : DataFrame) (name : pystr) :
  In name (List.map Teacher d) -> name <> U "-" ->
  PyDict.get (no_title_key name) (_preprocess_teachers_no_titles d)
  = List.find (enters_as (no_title_key name)) (rev (unique (List.map Teacher d)))
  /\ (exists t, PyDict.get (no_title_key name) (_preprocess_teachers_no_titles d) = Some t
                /\ In t (List.map Teacher d) /\ t <> U "-"
                /\ no_title_key t = no_title_key name)
  /\ ((forall t, In t (List.map Teacher d) -> t <> U "-" ->
          no_title_key t = no_title_key name -> t = name) ->
      PyDict.get (no_title_key name) (_preprocess_teachers_no_titles d) = Some name).
Proof.
  intros Hin Hne.
  unfold _preprocess_teachers_no_titles. rewrite no_titles_of_get.
  split; [reflexivity|].
  assert (Hfound : exists t, List.find (enters_as (no_title_key name))
                               (rev (unique (List.map Teacher d))) = Some t).
  { destruct (List.find _ _) eqn:Hf; [eauto|].
    exfalso.
    assert (Hrev : In name (rev (unique (List.map Teacher d))))
      by (apply in_rev; rewrite rev_involutive; by apply In_unique).
    pose proof (find_none _ _ Hf name Hrev) as Hn.
    unfold enters_as in Hn. rewrite str_eqb_refl, andb_true_r in Hn.
    apply negb_false_iff, str_eqb_true in Hn. done. }
  destruct Hfound as [t Hf]. rewrite Hf.
  pose proof (find_some _ _ Hf) as [Ht Hk].
  rewrite <- in_rev, In_unique in Ht.
  unfold enters_as in Hk. apply andb_true_iff in Hk as [Hd Hk].
  apply negb_true_iff, str_eqb_false in Hd. apply str_eqb_true in Hk.
  split; [by exists t|].
  intros Huniq. f_equal. by apply Huniq.
Qed.

(** A name that starts with a title is never the ["-"] placeholder. *)
Lemma titled_is_not_placeholder (name p : pystr) :
  In p title_prefixes -> startswith name p = true -> name <> U "-".
Proof.
  intros Hp Hs ->. revert Hs.
  destruct Hp as [<-|[<-|[<-|[<-|[<-|[]]]]]]; vm_compute; discriminate.
Qed.

Lemma get_some_key {V} (k : pystr) (v : V) (d : PyDict.t V) :
  PyDict.get k d = Some v -> In k (PyDict.keys d).
Proof.
  induction d as [|[k0 v0] d IH]; simpl; [discriminate|].
  destruct (str_eqb k0 k) eqn:Hk.
  - apply str_eqb_true in Hk. intros _. left. exact Hk.
  - intros Hg. right. apply IH, Hg.
Qed.

(** Stripping the title in the specification's sense cuts the first prefix
    of the list that matches. *)
Lemma strip_first_of_split (before : list pystr) (p : pystr) (after : list pystr)
    (name : pystr) :
  (forall q, In q before -> startswith name q = false) ->
  startswith name p = true ->
  strip_first_of (before ++ p :: after) name = strip (drop (length p) name).
Proof.
  intros Hb Hp. induction before as [|b before IH]; cbn [app strip_first_of].
  - by rewrite Hp.
  - rewrite (Hb b) by (left; reflexivity).
    apply IH. intros q Hq. apply Hb. right. exact Hq.
Qed.

(** C8 (amended): for a teacher name of the table that begins with a known
    title prefix, and whose remainder after that first matching prefix
    begins with no later prefix of the list, stripping the title (the first
    matching prefix) and normalising the remainder gives a key of the
    no-title vocabulary of the table; the key maps to the last teacher, in
    order of first appearance in the table, that the vocabulary enters under
    it, which is the name itself when no other teacher of the table is
    entered under that key.  For any name of the table other than the
    placeholder, the normalised remainder left by the whole loop over the
    prefixes is such a key. *)
Theorem no_title_round_trip (d : DataFrame) (name : pystr) :
  In name (List.map Teacher d) ->
  (forall before p after,
     title_prefixes = before ++ p :: after ->
     (forall q, In q before -> startswith name q = false) ->
     startswith name p = true ->
     (forall q, In q after -> startswith (strip (drop (length p) name)) q = false) ->
     strip_first_title name = strip (drop (length p) name)
     /\ round_trip_key name = _normalize_text (strip (drop (length p) name))
     /\ In (round_trip_key name) (PyDict.keys (_preprocess_teachers_no_titles d))
     /\ PyDict.get (round_trip_key name) (_preprocess_teachers_no_titles d)
        = List.find (enters_as (round_trip_key name)) (rev (unique (List.map Teacher d)))
     /\ (exists t, PyDict.get (round_trip_key name) (_preprocess_teachers_no_titles d) = Some t
                   /\ In t (List.map Teacher d) /\ t <> U "-"
                   /\ no_title_key t = round_trip_key name)
     /\ ((forall t, In t (List.map Teacher d) -> t <> U "-" ->
             no_title_key t = round_trip_key name -> t = name) ->
         PyDict.get (round_trip_key name) (_preprocess_teachers_no_titles d) = Some name))
  /\ (forall removed r,
        name <> U "-" ->
        title_loop title_prefixes name removed r ->
        In (_normalize_text r) (PyDict.keys (_preprocess_teachers_no_titles d))
        /\ (exists t, PyDict.get (_normalize_text r) (_preprocess_teachers_no_titles d) = Some t
                      /\ In t (List.map Teacher d) /\ t <> U "-"
                      /\ no_title_key t = _normalize_text r)
        /\ ((forall t, In t (List.map Teacher d) -> t <> U "-" ->
                no_title_key t = _normalize_text r -> t = name) ->
            PyDict.get (_normalize_text r) (_preprocess_teachers_no_titles d) = Some name)).
Proof.
  intros Hin. split.
  - intros before p after Hsplit Hb Hp Ha.
    assert (Hfirst : strip_first_title name = strip (drop (length p) name)).
    { unfold strip_first_title. rewrite Hsplit. by apply strip_first_of_split. }
    assert (Hkey : no_title_key name = round_trip_key name).
    { unfold no_title_key, round_trip_key, strip_titles. rewrite Hfirst, Hsplit.
      by destruct (strip_one before p after name Hb Hp Ha) as [-> _]. }
    assert (Hne : name <> U "-").
    { apply (titled_is_not_placeholder name p); [|exact Hp].
      rewrite Hsplit. apply in_or_app. right. left. reflexivity. }
    destruct (no_title_vocabulary_lookup d name Hin Hne) as (Hget & Hex & Huniq).
    rewrite Hkey in Hget, Hex, Huniq.
    split; [exact Hfirst|]. split; [unfold round_trip_key; by rewrite Hfirst|].
    split; [|split; [exact Hget|split; [exact Hex|exact Huniq]]].
    destruct Hex as (t & Ht & _). exact (get_some_key _ _ _ Ht).
  - intros removed r Hne Hloop.
    assert (Hkey : no_title_key name = _normalize_text r).
    { unfold no_title_key, strip_titles.
      by destruct (title_loop_unique _ _ _ _ Hloop) as [_ ->]. }
    destruct (no_title_vocabulary_lookup d name Hin Hne) as (_ & Hex & Huniq).
    rewrite Hkey in Hex, Huniq.
    split; [|split; [exact Hex|exact Huniq]].
    destruct Hex as (t & Ht & _). exact (get_some_key _ _ _ Ht).
Qed.

End VocabularyProps.

Lemma no_title_round_trip_witness :
  @PyDict.get pystr (@round_trip_key Stub.backend (U "Prof. Dr. Ayşe Kaya"))
    (@_preprocess_teachers_no_titles Stub.backend titled_table)
  = Some (U "Prof. Dr. Ayşe Kaya").
Proof.
  apply (proj1 (@no_title_round_trip Stub.backend titled_table (U "Prof. Dr. Ayşe Kaya")
                  (or_intror (or_introl eq_refl)))
           [U "Doç. Dr."; U "Öğr. Gör. Dr."; U "Öğr. Gör."] (U "Prof. Dr.") [U "Dr."]).
  - reflexivity.
  - intros q [<-|[<-|[<-|[]]]]; reflexivity.
  - reflexivity.
  - intros q [<-|[]]; reflexivity.
  - intros t [<-|[<-|[]]] _ Hk; [|reflexivity].
    vm_compute in Hk. discriminate Hk.
Defined.

(** C8 (as stated) fails twice.  Two teachers of one table share a key, and
    the key maps back to the later one only; and a name with two stacked
    titles is entered with both removed, so that the name with its title
    stripped, normalised, is no key of the vocabulary. *)
Lemma no_title_round_trip_fails :
  (In (U "Dr. Ali Veli") (List.map Teacher two_titles_table)
   /\ startswith (U "Dr. Ali Veli") (U "Dr.") = true
   /\ @round_trip_key Stub.backend (U "Dr. Ali Veli") = U "ali veli"
   /\ PyDict.get (U "ali veli") (@_preprocess_teachers_no_titles Stub.backend two_titles_table)
      = Some (U "Prof. Dr. Ali Veli")
   /\ U "Prof. Dr. Ali Veli" <> U "Dr. Ali Veli")
  /\ (In (U "Prof. Dr. Dr. Ali Veli") (List.map Teacher stacked_titles_table)
      /\ startswith (U "Prof. Dr. Dr. Ali Veli") (U "Prof. Dr.") = true
      /\ @round_trip_key Stub.backend (U "Prof. Dr. Dr. Ali Veli") = U "dr. ali veli"
      /\ PyDict.keys (@_preprocess_teachers_no_titles Stub.backend stacked_titles_table)
         = [U "ali veli"]
      /\ PyDict.get (U "dr. ali veli")
           (@_preprocess_teachers_no_titles Stub.backend stacked_titles_table)
         = None).
Proof.
  split.
  - split; [left; reflexivity|]. split; [reflexivity|]. split; [reflexivity|].
    split; [reflexivity|]. discriminate.
  - split; [left; reflexivity|]. split; [reflexivity|]. split; [reflexivity|].
    split; reflexivity.
Qed.

(** ** Follow-up resolution *)

Section FollowupProps.

Lemma dget_insert_eq (e : entities) k v : dget (<[k := v]> e) k = v.
Proof. unfold dget. by rewrite lookup_insert_eq. Qed.

Lemma dget_insert_ne (e : entities) k k' v : k <> k' -> dget (<[k := v]> e) k' = dget e k'.
Proof. intros Hne. unfold dget. by rewrite lookup_insert_ne. Qed.

Lemma followup_scan_find (e : entities) (l : list interaction) :
  followup_scan e l
  = match List.find (offers e) l with
    | None => e
    | Some i =>
        if negb (truthy (dget e "teacher")) && truthy (dget (i_entities i) "teacher")
        then <["teacher" := dget (i_entities i) "teacher"]> e
        else <["course" := dget (i_entities i) "course"]> e
    end.
Proof.
  induction l as [|i l IH]; simpl; [done|]. unfold offers at 1.
  destruct (negb (truthy (dget e "teacher")) && truthy (dget (i_entities i) "teacher")) eqn:Ht;
    simpl; [by rewrite Ht|].
  destruct (negb (truthy (dget e "course")) && truthy (dget (i_entities i) "course")) eqn:Hc;
    simpl; [by rewrite Ht|].
  exact IH.
Qed.

Lemma followup_scan_one_field (e : entities) (l : list interaction) :
  dget (followup_scan e l) "course" = dget e "course"
  \/ dget (followup_scan e l) "teacher" = dget e "teacher".
Proof.
  rewrite followup_scan_find. destruct (List.find _ _) as [i|]; [|by left].
  destruct (_ && _).
  - left. by apply dget_insert_ne.
  - right. by apply dget_insert_ne.
Qed.

Lemma followup_scan_teacher_set (e : entities) (l : list interaction) :
  truthy (dget e "teacher") = true ->
  followup_scan e l = backfill_field "course" l e.
Proof.
  intros Ht. unfold backfill_field.
  induction l as [|i l IH]; simpl.
  - by destruct (truthy (dget e "course")).
  - rewrite Ht. simpl. destruct (truthy (dget e "course")) eqn:Hc; simpl.
    + rewrite IH. done.
    + destruct (truthy (dget (i_entities i) "course")); [done|]. rewrite IH. done.
Qed.

Lemma followup_scan_course_set (e : entities) (l : list interaction) :
  truthy (dget e "course") = true ->
  followup_scan e l = backfill_field "teacher" l e.
Proof.
  intros Hc. unfold backfill_field.
  induction l as [|i l IH]; simpl.
  - by destruct (truthy (dget e "teacher")).
  - rewrite Hc. simpl. destruct (truthy (dget e "teacher")) eqn:Ht; simpl.
    + rewrite IH. done.
    + destruct (truthy (dget (i_entities i) "teacher")); [done|].
      rewrite IH. done.
Qed.

Lemma backfill_field_keeps_set (k : string) (l : list interaction) (e : entities) :
  truthy (dget e k) = true -> backfill_field k l e = e.
Proof. intros Hk. unfold backfill_field. by rewrite Hk. Qed.

Lemma backfill_field_other (k k' : string) (l : list interaction) (e : entities) :
  k <> k' -> dget (backfill_field k l e) k' = dget e k'.
Proof.
  intros Hne. unfold backfill_field.
  destruct (truthy (dget e k)); [done|].
  destruct (List.find _ _); [by apply dget_insert_ne|done].
Qed.

(** C3 (amended): when the gate is open the history is scanned newest-first
    and the scan ends at the first interaction that has a field the entities
    lack; teacher is taken if it is unset and that interaction has it,
    otherwise course.  So one field at most is back-filled, and the result is
    the independent per-field back-fill exactly when teacher or course was
    already set. *)
Theorem followup_backfills_one_field (followup : bool) (c : context) (e : entities) :
  followup = true
  \/ (truthy (dget e "course") = false /\ truthy (dget e "teacher") = false) ->
  followup_stage followup c e
  = match List.find (offers e) (rev (history c)) with
    | None => e
    | Some i =>
        if negb (truthy (dget e "teacher")) && truthy (dget (i_entities i) "teacher")
        then <["teacher" := dget (i_entities i) "teacher"]> e
        else <["course" := dget (i_entities i) "course"]> e
    end
  /\ (dget (followup_stage followup c e) "course" = dget e "course"
      \/ dget (followup_stage followup c e) "teacher" = dget e "teacher")
  /\ (truthy (dget e "course") = true \/ truthy (dget e "teacher") = true ->
      followup_stage followup c e = backfill_independent followup c e).
Proof.
  intros Hgate.
  assert (Hopen : followup || negb (truthy (dget e "course") || truthy (dget e "teacher"))
                  = true).
  { destruct Hgate as [->|[-> ->]]; [done|apply orb_true_r]. }
  unfold followup_stage, backfill_independent. rewrite Hopen.
  split; [apply followup_scan_find|].
  split; [apply followup_scan_one_field|].
  intros [Hc|Ht].
  - rewrite followup_scan_course_set by done.
    rewrite (backfill_field_keeps_set "course"); [done|].
    rewrite backfill_field_other by done. exact Hc.
  - rewrite followup_scan_teacher_set by done.
    by rewrite (backfill_field_keeps_set "teacher").
Qed.

(** The gate closed, the entities pass through unchanged. *)
Lemma followup_stage_closed (c : context) (e : entities) :
  truthy (dget e "course") = true \/ truthy (dget e "teacher") = true ->
  followup_stage false c e = e.
Proof.
  intros Hset. unfold followup_stage.
  destruct Hset as [-> | ->]; simpl; [done|]. by rewrite orb_true_r.
Qed.

End FollowupProps.

Lemma followup_backfills_one_field_witness :
  dget (followup_stage true two_turns (<["teacher" := VStr (U "Prof. Dr. Ayşe Kaya")]> empty_entities))
    "course" = VStr (U "CS101").
Proof.
  rewrite (proj1 (followup_backfills_one_field true two_turns
                    (<["teacher" := VStr (U "Prof. Dr. Ayşe Kaya")]> empty_entities)
                    (or_introl eq_refl))).
  reflexivity.
Defined.

(** C3 (as stated) fails: teacher is back-filled from the newest interaction
    and the scan ends there, so the course of the older interaction is not
    back-filled. *)
Lemma followup_leaves_course_unset :
  dget (followup_stage true two_turns empty_entities) "teacher" = VStr (U "Dr. Ali Veli")
  /\ dget (followup_stage true two_turns empty_entities) "course" = VNone
  /\ dget (backfill_independent true two_turns empty_entities) "course" = VStr (U "CS101").
Proof. vm_compute. done. Qed.

(** ** Schedule conflicts *)

Section ConflictProps.
Context `{B : Backend}.

Lemma slot_rows_filter (day : pystr) (t : time) (d : DataFrame) :
  slot_rows day t d
  = List.filter (fun r => is_lecture r && str_eqb (Day r) day
                          && bool_decide (Time r = Some t)) d.
Proof.
  unfold slot_rows. induction d as [|r d IH]; simpl; [done|].
  destruct (is_lecture r); simpl; [|exact IH].
  destruct (str_eqb (Day r) day); simpl; [|exact IH].
  destruct (bool_decide (Time r = Some t)); simpl; [by rewrite IH|exact IH].
Qed.

Lemma in_slot_rows (r : ScheduleRecord) (day : pystr) (t : time) (d : DataFrame) :
  In r (slot_rows day t d)
  <-> In r d /\ is_lecture r = true /\ Day r = day /\ Time r = Some t.
Proof.
  rewrite slot_rows_filter, filter_In, !andb_true_iff, str_eqb_true, bool_decide_eq_true.
  tauto.
Qed.

Lemma in_conflicts (d : DataFrame) (day : pystr) (t : time) (courses : list pystr) :
  In (day, t, courses) (conflicts d)
  <-> courses = List.map Course (slot_rows day t d)
      /\ (1 < length (slot_rows day t d))%nat.
Proof.
  unfold conflicts. rewrite in_flat_map. split.
  - intros (day' & _ & Hin). apply in_flat_map in Hin as (time & _ & Hin).
    destruct time as [t'|]; [|done].
    destruct (1 <? _)%nat eqn:Hlen; [|done].
    destruct Hin as [Heq|[]]. injection Heq as -> -> <-.
    split; [done|]. by apply Nat.ltb_lt.
  - intros [-> Hlen].
    destruct (slot_rows day t d) as [|r rest] eqn:Hrows; [simpl in Hlen; lia|].
    assert (Hr : In r (slot_rows day t d)) by (rewrite Hrows; by left).
    apply in_slot_rows in Hr as (Hd & Hl & Hday & Ht).
    exists day. split.
    + apply In_unique, in_map_iff. exists r. split; [done|].
      apply filter_In. done.
    + apply in_flat_map. exists (Some t). split.
      * apply In_unique, in_map_iff. exists r. split; [done|].
        rewrite !filter_In. by rewrite str_eqb_true.
      * fold (slot_rows day t d). rewrite Hrows in *.
        apply Nat.ltb_lt in Hlen. rewrite Hlen. by left.
Qed.

Lemma conflict_lines_fold (cs : list (pystr * time * list pystr)) (header : pystr) :
  fold_left (fun response c => response ++ conflict_line c) cs header
  = header ++ flat_map conflict_line cs.
Proof.
  revert header. induction cs as [|c cs IH]; intros header; simpl.
  - by rewrite app_nil_r.
  - rewrite IH. by rewrite <- app_assoc.
Qed.

Lemma schedule_conflict_some (d : DataFrame) :
  conflicts d <> [] ->
  schedule_conflict d
  = rstrip (U "⚠️ Schedule conflicts:" ++ [nl] ++ flat_map conflict_line (conflicts d)).
Proof.
  intros Hne. unfold schedule_conflict.
  destruct (conflicts d) as [|c cs]; [done|].
  rewrite conflict_lines_fold.
  rewrite <- app_assoc. apply strip_headed. vm_compute. reflexivity.
Qed.

Lemma two_rows_in_slot (pre mid post : DataFrame) (r1 r2 : ScheduleRecord) (t : time) :
  is_lecture r1 = true -> is_lecture r2 = true ->
  Day r2 = Day r1 -> Time r1 = Some t -> Time r2 = Some t ->
  (1 < length (slot_rows (Day r1) t (pre ++ r1 :: mid ++ r2 :: post)))%nat.
Proof.
  intros Hl1 Hl2 Hd H1 H2. rewrite slot_rows_filter.
  rewrite List.filter_app, length_app. simpl.
  rewrite Hl1, str_eqb_refl, H1, bool_decide_eq_true_2 by done. simpl.
  rewrite List.filter_app, length_app. simpl.
  rewrite Hl2, Hd, str_eqb_refl, H2, bool_decide_eq_true_2 by done. simpl. lia.
Qed.

(** C2 (amended): the [schedule_conflict] branch lists a (day, time) group of
    Lecture rows exactly when the group has more than one row, whatever the
    courses of the rows are, each group with the courses of all its rows;
    two Lecture rows that share a day and a present time are therefore both
    listed under it, and the answer is "No schedule conflicts found."
    exactly when no group has more than one row. *)
Theorem schedule_conflict_groups_of_rows self text (ents : entities) now rnd :
  predict_intent text = "schedule_conflict" ->
  fst (generate_response self text ents now rnd) = schedule_conflict (df self)
  /\ (forall day t courses,
        In (day, t, courses) (conflicts (df self))
        <-> courses = List.map Course (slot_rows day t (df self))
            /\ (1 < length (slot_rows day t (df self)))%nat)
  /\ (conflicts (df self) <> [] ->
      schedule_conflict (df self)
      = rstrip (U "⚠️ Schedule conflicts:" ++ [nl]
                ++ flat_map conflict_line (conflicts (df self))))
  /\ ((forall day t, (length (slot_rows day t (df self)) <= 1)%nat) <->
      schedule_conflict (df self) = U "No schedule conflicts found.")
  /\ (forall pre mid post r1 r2 t,
        df self = pre ++ r1 :: mid ++ r2 :: post ->
        is_lecture r1 = true -> is_lecture r2 = true ->
        Day r2 = Day r1 -> Time r1 = Some t -> Time r2 = Some t ->
        exists courses,
          In (Day r1, t, courses) (conflicts (df self))
          /\ In (Course r1) courses /\ In (Course r2) courses).
Proof.
  intros Hi. split; [by apply generate_response_schedule_conflict|].
  split; [apply in_conflicts|]. split; [apply schedule_conflict_some|]. split.
  - split.
    + intros Hsmall. unfold schedule_conflict.
      destruct (conflicts (df self)) as [|[[day t] courses] cs] eqn:Hc; [done|].
      assert (Hin : In (day, t, courses) (conflicts (df self))) by (rewrite Hc; by left).
      apply in_conflicts in Hin as [_ Hlen]. specialize (Hsmall day t). lia.
    + intros Hmsg day t.
      destruct (conflicts (df self)) as [|c cs] eqn:Hc.
      * apply Nat.nlt_ge. intros Hlen.
        assert (Hin : In (day, t, List.map Course (slot_rows day t (df self)))
                        (conflicts (df self))) by (by apply in_conflicts).
        rewrite Hc in Hin. destruct Hin.
      * exfalso. rewrite schedule_conflict_some in Hmsg by (rewrite Hc; done).
        apply (f_equal hd_error) in Hmsg.
        rewrite rstrip_hd in Hmsg by (vm_compute; reflexivity).
        vm_compute in Hmsg. discriminate Hmsg.
  - intros pre mid post r1 r2 t Hdf Hl1 Hl2 Hd H1 H2.
    exists (List.map Course (slot_rows (Day r1) t (df self))).
    split; [|split].
    + apply in_conflicts. split; [done|]. rewrite Hdf. by apply two_rows_in_slot.
    + apply in_map, in_slot_rows. rewrite Hdf. split_and!; try done.
      apply in_or_app. right. by left.
    + apply in_map, in_slot_rows. rewrite Hdf. split_and!; try done.
      apply in_or_app. right. right. apply in_or_app. right. by left.
Qed.

End ConflictProps.

Lemma schedule_conflict_groups_of_rows_witness :
  exists courses,
    In (U "Tuesday", ten, courses) (conflicts tuesday_table)
    /\ In (U "CS101") courses /\ In (U "MATH201") courses.
Proof.
  refine (proj2 (proj2 (proj2 (proj2
    (@schedule_conflict_groups_of_rows Stub.backend (stub_bot tuesday_table fresh_context)
       (U "Any conflicts?") empty_entities 0 0 _))))
    [] [] []
    (mk_row (U "CS101") (U "Dr. Ali Veli") (U "Tuesday") (Some ten) (U "201") (U "Lecture") None None)
    (mk_row (U "MATH201") (U "Prof. Dr. Ayşe Kaya") (U "Tuesday") (Some ten) (U "202") (U "Lecture") None None)
    ten _ _ _ _ _ _); reflexivity.
Defined.

Example schedule_conflict_two_courses :
  fst (@generate_response Stub.backend (stub_bot tuesday_table fresh_context)
         (U "Any conflicts?") empty_entities 0 0)
  = U "⚠️ Schedule conflicts:" ++ [nl] ++ U "- Tuesday at 10:00: CS101, MATH201".
Proof. reflexivity. Qed.

(** C2 (as stated) fails: a group whose rows all belong to one course is
    reported as a conflict. *)
Lemma schedule_conflict_same_course :
  (forall day t,
     (length (unique (List.map Course (slot_rows day t same_course_table))) <= 1)%nat)
  /\ fst (@generate_response Stub.backend (stub_bot same_course_table fresh_context)
            (U "Any conflicts?") empty_entities 0 0)
     = U "⚠️ Schedule conflicts:" ++ [nl] ++ U "- Tuesday at 10:00: CS101, CS101".
Proof.
  split; [|reflexivity].
  intros day t. apply (unique_constant (U "CS101")).
  intros c Hc. apply in_map_iff in Hc as (r & <- & Hr).
  apply in_slot_rows in Hr as (Hr & _).
  destruct Hr as [<-|[<-|[]]]; reflexivity.
Qed.

(** ** Exam information *)

Section ExamProps.
Context `{B : Backend}.

Lemma append_lines_none (header : pystr) keep line (d : DataFrame) :
  (forall r, In r d -> keep r = false) -> append_lines header keep line d = header.
Proof.
  unfold append_lines. induction d as [|r d IH]; intros Hnone; simpl; [done|].
  rewrite (Hnone r) by (by left). apply IH. intros r' Hr'. apply Hnone. by right.
Qed.

Lemma strip_exam_header (course : pystr) :
  strip (U "📝 Exam info for " ++ course ++ U ":" ++ [nl])
  = U "📝 Exam info for " ++ course ++ U ":".
Proof.
  rewrite strip_headed by (vm_compute; reflexivity).
  change (U ":" ++ [nl]) with [58; nl]. change (U ":") with [58].
  rewrite !app_assoc. by apply rstrip_line.
Qed.

(** C10 (amended): for [exam_info] with a resolved course, what decides is
    the set of exam rows of the course after the narrowing by the
    [exam_type] entity: if it is empty the answer is the not-found message,
    and if it is non-empty but none of its rows has an exam date the answer
    is the header alone. *)
Theorem exam_info_without_dates self text (ents : entities) now rnd (course : pystr) :
  predict_intent text = "exam_info" ->
  operative ents "course" (last_course (ctx self)) = VStr course ->
  course <> [] ->
  (exam_rows course (dget ents "exam_type") (df self) <> [] ->
   (forall r, In r (exam_rows course (dget ents "exam_type") (df self)) ->
              ExamDate r = None) ->
   fst (generate_response self text ents now rnd)
   = U "📝 Exam info for " ++ course ++ U ":")
  /\ (exam_rows course (dget ents "exam_type") (df self) = [] ->
      fst (generate_response self text ents now rnd)
      = U "No exam info found for " ++ course ++ U ".").
Proof.
  intros Hi Hc Hne. rewrite generate_response_exam_info by done. rewrite Hc.
  destruct course as [|c0 cs]; [done|]. unfold exam_info. split.
  - intros Hrows Hdates.
    destruct (exam_rows (c0 :: cs) (dget ents "exam_type") (df self)) as [|r0 rs]; [done|].
    rewrite append_lines_none.
    + apply strip_exam_header.
    + intros r Hr. rewrite (Hdates r Hr). apply bool_decide_eq_false_2.
      intros Hn. by apply Hn.
  - intros ->. done.
Qed.

End ExamProps.

Lemma exam_info_without_dates_witness :
  fst (@generate_response Stub.backend (stub_bot undated_midterm fresh_context)
         (U "CS101 exam?") (<["course" := VStr (U "CS101")]> empty_entities) 0 0)
  = U "📝 Exam info for " ++ U "CS101" ++ U ":".
Proof.
  refine (proj1 (@exam_info_without_dates Stub.backend (stub_bot undated_midterm fresh_context)
                   (U "CS101 exam?") (<["course" := VStr (U "CS101")]> empty_entities) 0 0
                   (U "CS101") _ _ _) _ _).
  - reflexivity.
  - vm_compute. reflexivity.
  - discriminate.
  - vm_compute. discriminate.
  - intros r Hr. vm_compute in Hr. destruct Hr as [<-|[]]. reflexivity.
Defined.

(** C10 (as stated) fails: the course has an exam row, none with a date, and
    the [exam_type] entity matches none of them, so the answer is the
    not-found message and not the header. *)
Lemma exam_info_narrowed_to_nothing :
  List.filter (fun r => str_eqb (Course r) (U "CS101") && is_exam r) undated_midterm
  = undated_midterm
  /\ forallb (fun r => bool_decide (ExamDate r = None)) undated_midterm = true
  /\ fst (@generate_response Stub.backend (stub_bot undated_midterm fresh_context)
            (U "When is the CS101 final exam?")
            (<["exam_type" := VStr (U "final")]>
               (<["course" := VStr (U "CS101")]> empty_entities)) 0 0)
     = U "No exam info found for CS101.".
Proof. vm_compute. done. Qed.

(** ** The loader's time columns *)

Section LoaderProps.
Context `{B : Backend}.
Import Loader.

Lemma in_lstrip (c : N) (l : pystr) :
  In c l -> is_space c = false -> In c (lstrip l).
Proof.
  intros Hin Hc. induction l as [|x l IH]; simpl; [done|].
  destruct (is_space x) eqn:Hx; [|done].
  destruct Hin as [->|Hin]; [congruence|by apply IH].
Qed.

Lemma in_strip (c : N) (l : pystr) :
  In c l -> is_space c = false -> In c (strip l).
Proof.
  intros Hin Hc. unfold strip, rstrip.
  apply in_lstrip; [|done]. apply in_rev. rewrite rev_involutive.
  apply in_lstrip; [|done]. by apply in_rev in Hin.
Qed.

Lemma contains_char (a : pystr) (c : N) (b : pystr) : contains (a ++ c :: b) [c] = true.
Proof.
  induction a as [|x a IH]; simpl.
  - by rewrite N.eqb_refl.
  - rewrite IH. apply orb_true_r.
Qed.

Lemma not_contains_char (s : pystr) (c : N) :
  (forall x, In x s -> x <> c) -> contains s [c] = false.
Proof.
  induction s as [|x s IH]; intros Hno; simpl; [done|].
  rewrite IH by (intros y Hy; apply Hno; by right).
  assert (Hx : (c =? x) = false).
  { apply N.eqb_neq. intros ->. apply (Hno x); [by left|done]. }
  by rewrite Hx.
Qed.

Lemma split_first_app (a : pystr) (c : N) (b : pystr) :
  (forall x, In x a -> x <> c) -> split_first c (a ++ c :: b) = a.
Proof.
  induction a as [|x a IH]; intros Hno; simpl.
  - by rewrite N.eqb_refl.
  - assert (Hx : (x =? c) = false) by (apply N.eqb_neq, Hno; by left).
    rewrite Hx, IH; [done|]. intros y Hy. apply Hno. by right.
Qed.

Lemma replace_dots_keeps_dash (a : pystr) :
  (forall x, In x a -> x <> 45) -> forall x, In x (replace_char 46 58 a) -> x <> 45.
Proof.
  intros Hno x Hx. unfold replace_char in Hx. apply in_map_iff in Hx as (y & <- & Hy).
  destruct (y =? 46); [done|by apply Hno].
Qed.

(** A range keeps its start: the part before the first dash, dots turned
    into colons, trimmed. *)
Lemma clean_time_range (a b : pystr) :
  (forall x, In x a -> x <> 45) ->
  clean_time (CStr (a ++ 45 :: b)) = strip (replace_char 46 58 a).
Proof.
  intros Hno. unfold clean_time.
  assert (Hne : nonempty (strip (a ++ 45 :: b)) = true).
  { assert (Hin : In 45 (strip (a ++ 45 :: b)))
      by (apply in_strip; [apply in_or_app; right; by left | done]).
    by destruct (strip (a ++ 45 :: b)). }
  rewrite Hne. unfold replace_char at 1 2. rewrite map_app. simpl.
  change (U "-") with [45]. rewrite contains_char.
  fold (replace_char 46 58 a). rewrite split_first_app; [done|].
  by apply replace_dots_keeps_dash.
Qed.

Lemma clean_time_single (s : pystr) :
  (forall x, In x s -> x <> 45) -> nonempty (strip s) = true ->
  clean_time (CStr s) = replace_char 46 58 s.
Proof.
  intros Hno Hne. unfold clean_time. rewrite Hne.
  change (U "-") with [45].
  by rewrite not_contains_char by (by apply replace_dots_keeps_dash).
Qed.

Lemma to_time_obj_some (s : pystr) (t : time) :
  to_time_obj s = Ok (Some t)
  <-> s <> []
      /\ (to_datetime HMS s = Ok (Some t)
          \/ (to_datetime HMS s = Ok None /\ to_datetime HM s = Ok (Some t))).
Proof.
  unfold to_time_obj. destruct s as [|c s]; [split; [done|by intros [? _]]|].
  destruct (to_datetime HMS (c :: s)) as [[t1|]|]; simpl.
  - split; [intros [= ->]; auto|]. intros [_ [[= ->]|[? _]]]; done.
  - destruct (to_datetime HM (c :: s)) as [[t2|]|]; simpl.
    + split; [intros [= ->]; auto|]. intros [_ [?|[_ [= ->]]]]; done.
    + split; [done|]. intros [_ [?|[_ ?]]]; done.
    + split; [done|]. intros [_ [?|[_ ?]]]; done.
  - split; [done|]. intros [_ [?|[? _]]]; done.
Qed.

Lemma to_time_obj_returns (s : pystr) : exists r, to_time_obj s = Ok r.
Proof.
  unfold to_time_obj. destruct s as [|c s]; [eauto|].
  destruct (to_datetime HMS (c :: s)) as [[t1|]|]; simpl; eauto.
  destruct (to_datetime HM (c :: s)) as [[t2|]|]; simpl; eauto.
Qed.

(** The two passes over a column leave in each cell what cleaning and then
    reading that cell gives. *)
Lemma load_time_column_cells (col : list cell) :
  exists rs, load_time_column col = Ok rs
             /\ List.Forall2 (fun c r => load_time_cell c = Ok r) col rs.
Proof.
  unfold load_time_column.
  assert (Hclean : apply_column (fun x => Ok (clean_time x)) col
                   = Ok (List.map clean_time col)).
  { induction col as [|x col IH]; simpl; [done|]. by rewrite IH. }
  rewrite Hclean. clear Hclean. cbn [bind].
  induction col as [|c col IH]; cbn [List.map apply_column].
  - exists []. split; [reflexivity|constructor].
  - destruct (to_time_obj_returns (clean_time c)) as [r Hr].
    destruct IH as (rs & Hrs & Hall).
    rewrite Hr, Hrs. cbn [bind]. exists (r :: rs). split; [reflexivity|].
    constructor; [exact Hr|exact Hall].
Qed.

(** C9: a cell of [Time] or [Exam Time] always loads to a time or to [None],
    never to an error; it loads to a time exactly when its cleaned text is
    read by the [%H:%M:%S] format or, failing that, by [%H:%M]; a range is
    cleaned to its start, with dots turned into colons.  Loading a whole
    column never raises, and leaves at each position what loading the cell
    at that position gives: a time exactly when the cleaned cell is read by
    one of the two formats, [None] otherwise. *)
Theorem load_time_cell_coerces (x : cell) :
  (exists r, load_time_cell x = Ok r)
  /\ (forall t,
        load_time_cell x = Ok (Some t)
        <-> clean_time x <> []
            /\ (to_datetime HMS (clean_time x) = Ok (Some t)
                \/ (to_datetime HMS (clean_time x) = Ok None
                    /\ to_datetime HM (clean_time x) = Ok (Some t))))
  /\ (forall a b, x = CStr (a ++ 45 :: b) -> (forall c, In c a -> c <> 45) ->
        load_time_cell x = to_time_obj (strip (replace_char 46 58 a)))
  /\ (forall s, x = CStr s -> (forall c, In c s -> c <> 45) -> nonempty (strip s) = true ->
        load_time_cell x = to_time_obj (replace_char 46 58 s))
  /\ (forall col,
        exists rs,
          load_time_column col = Ok rs
          /\ length rs = length col
          /\ List.Forall2 (fun c r => load_time_cell c = Ok r) col rs
          /\ (forall i c,
                col !! i = Some c ->
                exists r,
                  rs !! i = Some r
                  /\ to_time_obj (clean_time c) = Ok r
                  /\ (forall t,
                        r = Some t
                        <-> clean_time c <> []
                            /\ (to_datetime HMS (clean_time c) = Ok (Some t)
                                \/ (to_datetime HMS (clean_time c) = Ok None
                                    /\ to_datetime HM (clean_time c) = Ok (Some t))))
                  /\ (r = None
                      <-> forall t,
                            ~ (clean_time c <> []
                               /\ (to_datetime HMS (clean_time c) = Ok (Some t)
                                   \/ (to_datetime HMS (clean_time c) = Ok None
                                       /\ to_datetime HM (clean_time c) = Ok (Some t)))))
                  /\ (forall a b, c = CStr (a ++ 45 :: b) -> (forall y, In y a -> y <> 45) ->
                        to_time_obj (strip (replace_char 46 58 a)) = Ok r)
                  /\ (forall s, c = CStr s -> (forall y, In y s -> y <> 45) ->
                        nonempty (strip s) = true ->
                        to_time_obj (replace_char 46 58 s) = Ok r))).
Proof.
  unfold load_time_cell. split; [apply to_time_obj_returns|].
  split; [intros t; apply to_time_obj_some|]. split; [|split].
  - intros a b -> Hno. by rewrite clean_time_range.
  - intros s -> Hno Hne. by rewrite clean_time_single.
  - intros col. destruct (load_time_column_cells col) as (rs & Hrs & Hall).
    exists rs. split; [exact Hrs|]. split; [symmetry; exact (Forall2_length _ _ _ Hall)|].
    split; [exact Hall|]. intros i c Hc.
    destruct (Forall2_lookup_l _ _ _ _ _ Hall Hc) as (r & Hr & Hload).
    unfold load_time_cell in Hload.
    exists r. split; [exact Hr|]. split; [exact Hload|].
    assert (Hsome : forall t,
               r = Some t
               <-> clean_time c <> []
                   /\ (to_datetime HMS (clean_time c) = Ok (Some t)
                       \/ (to_datetime HMS (clean_time c) = Ok None
                           /\ to_datetime HM (clean_time c) = Ok (Some t)))).
    { intros t. rewrite <- to_time_obj_some, Hload.
      split; [intros ->; reflexivity|intros [= ->]; reflexivity]. }
    split; [exact Hsome|]. split; [|split].
    + split.
      * intros -> t Ht. apply Hsome in Ht. discriminate Ht.
      * intros Hnone. destruct r as [t|]; [|reflexivity].
        exfalso. apply (Hnone t), Hsome. reflexivity.
    + intros a b -> Hno. rewrite <- Hload. by rewrite clean_time_range.
    + intros s -> Hno Hne. rewrite <- Hload. by rewrite clean_time_single.
Qed.

End LoaderProps.

Lemma load_time_cell_coerces_witness :
  @Loader.load_time_cell Stub.backend (CStr (U "08.00-10.00"))
  = @Loader.to_time_obj Stub.backend (strip (replace_char 46 58 (U "08.00"))).
Proof.
  apply (proj1 (proj2 (proj2 (@load_time_cell_coerces Stub.backend (CStr (U "08.00-10.00")))))
           (U "08.00") (U "10.00")).
  - reflexivity.
  - intros c Hc. vm_compute in Hc.
    destruct Hc as [<-|[<-|[<-|[<-|[<-|[]]]]]]; discriminate.
Defined.

Example load_seconds :
  @Loader.load_time_cell Stub.backend (CStr (U "14:30:15")) = Ok (Some (mk_time 14 30 15)).
Proof. reflexivity. Qed.

Example load_unparseable :
  @Loader.load_time_column Stub.backend
    [CStr (U "noon"); CStr (U "25:00"); CStr (U " 08:00"); CStr []; CObj; CStr (U "9:05")]
  = Ok [None; None; None; None; None; Some (mk_time 9 5 0)].
Proof. reflexivity. Qed.

(** ** What [extract_entities] hands to the dispatch *)

Section ExtractProps.
Context `{B : Backend}.

Lemma keeps_keys_refl (e : entities) : keeps_keys e e.
Proof. by intros k. Qed.

Lemma keeps_keys_trans (e1 e2 e3 : entities) :
  keeps_keys e1 e2 -> keeps_keys e2 e3 -> keeps_keys e1 e3.
Proof. intros H12 H23 k Hk. by apply H23, H12. Qed.

Lemma keeps_keys_insert (e : entities) k v : keeps_keys e (<[k := v]> e).
Proof.
  intros k' Hk'. destruct (decide (k = k')) as [->|Hne].
  - rewrite lookup_insert_eq. eauto.
  - by rewrite lookup_insert_ne.
Qed.

Lemma keeps_keys_fold {A} (f : entities -> A -> entities) (l : list A) (e : entities) :
  (forall e a, keeps_keys e (f e a)) -> keeps_keys e (fold_left f l e).
Proof.
  intros Hf. revert e. induction l as [|a l IH]; intros e; simpl.
  - apply keeps_keys_refl.
  - eapply keeps_keys_trans; [apply Hf|apply IH].
Qed.

Create HintDb keys.
#[local] Hint Resolve keeps_keys_refl keeps_keys_insert : keys.

Lemma fuzzy_stage_keeps self normalized (e e' : entities) :
  fuzzy_stage self normalized e = Ok e' -> keeps_keys e e'.
Proof.
  unfold fuzzy_stage.
  assert (Hfirst : forall e1,
            (if truthy (dget e "course") then Ok e
             else do c <- fuzzy_match_entity normalized (normalized_courses self);
                  Ok (<["course" := c]> e)) = Ok e1 -> keeps_keys e e1).
  { intros e1. destruct (truthy (dget e "course")); [intros [= <-]; auto with keys|].
    destruct (fuzzy_match_entity _ _); simpl; [intros [= <-]; auto with keys|done]. }
  destruct (if truthy (dget e "course") then _ else _) as [e1|]; simpl; [|done].
  specialize (Hfirst e1 eq_refl). intros He'.
  eapply keeps_keys_trans; [exact Hfirst|].
  destruct (truthy (dget e1 "teacher")); [injection He' as <-; auto with keys|].
  destruct (fuzzy_match_entity normalized (normalized_teachers self)) as [t|]; simpl in He'; [|done].
  destruct (truthy t); [injection He' as <-; auto with keys|].
  destruct (fuzzy_match_entity normalized (normalized_teachers_no_titles self));
    simpl in He'; [injection He' as <-; auto with keys|done].
Qed.

Lemma ner_step_keeps self (e e' : entities) ent :
  ner_step self e ent = Ok e' -> keeps_keys e e'.
Proof.
  unfold ner_step. destruct ent as [label text].
  destruct (String.eqb label "COURSE").
  { destruct (fuzzy_match_entity _ _) as [tm|]; simpl; [|done].
    destruct (truthy tm); intros [= <-]; [|auto with keys].
    eapply keeps_keys_trans; apply keeps_keys_insert. }
  repeat (match goal with
          | |- context [if String.eqb ?a ?b then _ else _] => destruct (String.eqb a b)
          end; [intros [= <-]; auto with keys|]).
  destruct (_ && _); [|intros [= <-]; auto with keys].
  destruct (fuzzy_match_entity _ _); simpl; [intros [= <-]; auto with keys|done].
Qed.

Lemma ner_stage_keeps self (es : list (string * pystr)) (e e' : entities) :
  ner_stage self e es = Ok e' -> keeps_keys e e'.
Proof.
  revert e. induction es as [|ent es IH]; intros e; simpl.
  - intros [= <-]. apply keeps_keys_refl.
  - destruct (ner_step self e ent) as [e1|] eqn:Hstep; simpl; [|done].
    intros Hrest. eapply keeps_keys_trans; [by eapply ner_step_keeps|by apply IH].
Qed.

Lemma followup_stage_keeps followup c (e : entities) :
  keeps_keys e (followup_stage followup c e).
Proof.
  unfold followup_stage. destruct (_ || _); [|apply keeps_keys_refl].
  rewrite followup_scan_find. destruct (List.find _ _); [|apply keeps_keys_refl].
  destruct (_ && _); apply keeps_keys_insert.
Qed.

Lemma day_stage_keeps d (e : entities) : keeps_keys e (day_stage d e).
Proof.
  apply keeps_keys_fold. intros e' tok. destruct (PyDict.get _ _); auto with keys.
Qed.

Lemma keyword_stage_keeps m (e : entities) : keeps_keys e (keyword_stage m e).
Proof.
  apply keeps_keys_fold. intros e' x.
  destruct (keyword_to_entity _); [|auto with keys].
  destruct (_ && _); auto with keys.
Qed.

Lemma building_stage_keeps d (e : entities) : keeps_keys e (building_stage d e).
Proof.
  apply keeps_keys_fold. intros e' tok. destruct (existsb _ _); auto with keys.
Qed.

Lemma exam_stage_keeps l d (e : entities) : keeps_keys e (exam_stage l d e).
Proof.
  apply keeps_keys_fold. intros e' tok. destruct (existsb _ _); auto with keys.
Qed.

(** The dictionary that [extract_entities] returns has all six keys. *)
Lemma extract_entities_keys self text (e : entities) :
  extract_entities self text = Ok e -> keeps_keys empty_entities e.
Proof.
  unfold extract_entities.
  set (e0 := set_if_found "teacher" _ (set_if_found "course" _ empty_entities)).
  assert (H0 : keeps_keys empty_entities e0).
  { subst e0. unfold set_if_found.
    destruct (exact_match _ (normalized_courses self));
      destruct (exact_match _ (normalized_teachers self)); auto with keys.
    eapply keeps_keys_trans; apply keeps_keys_insert. }
  destruct (fuzzy_stage self _ e0) as [e1|] eqn:H1; simpl; [|done].
  destruct (ner_stage self e1 _) as [e2|] eqn:H2; simpl; [|done].
  intros [= <-].
  eapply keeps_keys_trans; [exact H0|].
  eapply keeps_keys_trans; [by eapply fuzzy_stage_keeps|].
  eapply keeps_keys_trans; [by eapply ner_stage_keeps|].
  eapply keeps_keys_trans; [|apply exam_stage_keeps].
  eapply keeps_keys_trans; [|apply building_stage_keeps].
  eapply keeps_keys_trans; [|apply keyword_stage_keeps].
  eapply keeps_keys_trans; [|apply day_stage_keeps].
  apply followup_stage_keeps.
Qed.

(** Recording a turn of [extract_entities] always replaces the remembered
    course, teacher and day by the turn's own values, [None] included. *)
Lemma update_context_after_extract self text (e : entities) c q i now :
  extract_entities self text = Ok e ->
  last_course (_update_context c q i e now) = dget e "course"
  /\ last_teacher (_update_context c q i e now) = dget e "teacher"
  /\ last_day (_update_context c q i e now) = dget e "day".
Proof.
  intros He. pose proof (extract_entities_keys self text e He) as Hk.
  unfold _update_context, dget_or, dget. simpl.
  destruct (Hk "course") as [v1 ->]; [by eexists|].
  destruct (Hk "teacher") as [v2 ->]; [by eexists|].
  destruct (Hk "day") as [v3 ->]; [by eexists|]. done.
Qed.

End ExtractProps.

Example extract_nothing :
  @extract_entities Stub.backend (stub_bot cs101_table fresh_context) (U "Thanks!")
  = Ok empty_entities.
Proof. vm_compute. reflexivity. Qed.

(** A session of two turns: the first names a course, the second asks about
    a teacher, and the remembered course is gone. *)
Example session_forgets_course :
  match @turn Stub.backend (stub_bot cs101_table fresh_context) (U "When is CS101?") 1 0 with
  | Ok (r1, bot1) =>
      r1 = U "📚 Schedule for CS101:" ++ [nl] ++ U "- Monday at 09:00 in room 201"
      /\ last_course (ctx bot1) = VStr (U "CS101")
      /\ match @turn Stub.backend bot1 (U "What does Dr. Ali Veli teach?") 2 0 with
         | Ok (_, bot2) =>
             last_teacher (ctx bot2) = VStr (U "Dr. Ali Veli")
             /\ last_course (ctx bot2) = VNone
         | Raise => False
         end
  | Raise => False
  end.
Proof. vm_compute. done. Qed.

(** * Further properties *)

(** ** A whole turn *)

Section TurnProps.
Context `{B : Backend}.

(** The dictionary [extract_entities] returns carries each of its six keys,
    whatever the text and the state of the chatbot. *)
Theorem extract_entities_returns_all_keys self text (e : entities) (k : string) :
  extract_entities self text = Ok e ->
  In k ["course"; "teacher"; "exam_type"; "day"; "time"; "building"]%string ->
  exists v, e !! k = Some v.
Proof.
  intros He Hk. apply (extract_entities_keys self text e He).
  destruct Hk as [<-|[<-|[<-|[<-|[<-|[<-|[]]]]]]]; vm_compute; eauto.
Qed.

Lemma ner_stage_set_ctx self c (e : entities) es :
  ner_stage (set_ctx self c) e es = ner_stage self e es.
Proof.
  revert e. induction es as [|ent es IH]; intros e; simpl; [done|].
  change (ner_step (set_ctx self c) e ent) with (ner_step self e ent).
  destruct (ner_step self e ent); simpl; [apply IH|done].
Qed.

(** Extraction reads the context through its history only. *)
Lemma extract_entities_reads_history self text h a b c a' b' c' :
  extract_entities (set_ctx self (mk_context h a b c)) text
  = extract_entities (set_ctx self (mk_context h a' b' c')) text.
Proof.
  unfold extract_entities.
  change (fuzzy_stage (set_ctx self (mk_context h a' b' c'))) with (fuzzy_stage self).
  change (fuzzy_stage (set_ctx self (mk_context h a b c))) with (fuzzy_stage self).
  cbn [normalized_courses normalized_teachers set_ctx].
  destruct (fuzzy_stage self _ _) as [e1|]; cbn [bind]; [|done].
  rewrite !ner_stage_set_ctx. reflexivity.
Qed.

(** With the three keys in the dictionary the answer does not read what the
    context remembered. *)
Lemma generate_response_ignores_memory self c1 c2 text (e : entities) now rnd :
  is_Some (e !! "course") -> is_Some (e !! "teacher") -> is_Some (e !! "day") ->
  fst (generate_response (set_ctx self c1) text e now rnd)
  = fst (generate_response (set_ctx self c2) text e now rnd).
Proof.
  intros [v1 H1] [v2 H2] [v3 H3].
  unfold generate_response, _update_context, dget_or.
  cbn [fst ctx set_ctx df normalized_courses last_course last_teacher last_day].
  rewrite H1, H2, H3. reflexivity.
Qed.

(** In the chat loop the answer to a text never depends on the remembered
    course, teacher and day of the context, only on its history. *)
Theorem turn_ignores_remembered_values self text now rnd h a b c a' b' c' :
  answer (turn (set_ctx self (mk_context h a b c)) text now rnd)
  = answer (turn (set_ctx self (mk_context h a' b' c')) text now rnd).
Proof.
  unfold turn. rewrite (extract_entities_reads_history self text h a b c a' b' c').
  destruct (extract_entities _ text) as [e|] eqn:He; cbn [bind answer]; [|done].
  pose proof (extract_entities_keys _ text e He) as Hk.
  destruct (generate_response (set_ctx self (mk_context h a b c)) text e now rnd)
    as [r1 s1] eqn:G1.
  destruct (generate_response (set_ctx self (mk_context h a' b' c')) text e now rnd)
    as [r2 s2] eqn:G2.
  f_equal. change r1 with (fst (r1, s1)). change r2 with (fst (r2, s2)).
  rewrite <- G1, <- G2.
  apply generate_response_ignores_memory; apply Hk; vm_compute; eauto.
Qed.

(** [generate_response] leaves the table and the vocabularies alone and
    records the turn: its interaction, with the predicted intent and the
    entities as given, is the newest entry of the history, which grows by
    one up to five entries. *)
Theorem generate_response_records_turn self text (e : entities) now rnd :
  let self' := snd (generate_response self text e now rnd) in
  df self' = df self
  /\ normalized_courses self' = normalized_courses self
  /\ normalized_teachers self' = normalized_teachers self
  /\ normalized_teachers_no_titles self' = normalized_teachers_no_titles self
  /\ last (history (ctx self')) = Some (mk_interaction text (predict_intent text) e now)
  /\ length (history (ctx self')) = Nat.min 5 (S (length (history (ctx self)))).
Proof.
  cbn zeta. unfold generate_response. cbn [snd set_ctx df normalized_courses
    normalized_teachers normalized_teachers_no_titles ctx].
  repeat (split; [reflexivity|]).
  rewrite update_context_history. unfold last_n.
  rewrite length_app. cbn [length].
  rewrite drop_app_le by lia. split.
  - apply last_snoc.
  - rewrite length_app, length_drop. cbn [length]. lia.
Qed.

End TurnProps.

Lemma extract_entities_returns_all_keys_witness :
  exists v, (empty_entities : entities) !! "day" = Some v.
Proof.
  apply (@extract_entities_returns_all_keys Stub.backend
           (stub_bot cs101_table fresh_context) (U "Thanks!") empty_entities "day").
  - vm_compute. reflexivity.
  - vm_compute. tauto.
Defined.

Lemma update_context_after_extract_witness :
  last_course (_update_context fresh_context (U "Thanks!") "thanks" empty_entities 0)
  = dget empty_entities "course"
  /\ last_teacher (_update_context fresh_context (U "Thanks!") "thanks" empty_entities 0)
     = dget empty_entities "teacher"
  /\ last_day (_update_context fresh_context (U "Thanks!") "thanks" empty_entities 0)
     = dget empty_entities "day".
Proof.
  apply (@update_context_after_extract Stub.backend
           (stub_bot cs101_table fresh_context) (U "Thanks!")).
  vm_compute. reflexivity.
Defined.

(** ** Answers that do not depend on the table *)

Section PromptProps.
Context `{B : Backend}.

Lemma por_falsy (ents : entities) k last :
  truthy (dget ents k) = false -> truthy last = false ->
  truthy (por (dget ents k) (dget_or ents k last)) = false.
Proof. apply operative_falsy. Qed.

Ltac branch Hi := unfold generate_response; rewrite Hi; cbn [fst String.eqb Ascii.eqb Bool.eqb].

(** Each branch that needs a course, a teacher or a day and finds none, in
    the entities or in the context, answers with its own question. *)
Theorem clarification_prompts self text (ents : entities) now rnd :
  (truthy (dget ents "course") = false -> truthy (last_course (ctx self)) = false ->
   (predict_intent text = "exam_info" ->
    fst (generate_response self text ents now rnd)
    = U "Which course's exam info would you like?")
   /\ (predict_intent text = "room_info" ->
       fst (generate_response self text ents now rnd)
       = U "Which course's room info would you like?")
   /\ (predict_intent text = "course_availability" ->
       fst (generate_response self text ents now rnd) = U "Which course are you checking?")
   /\ (predict_intent text = "section_info" ->
       fst (generate_response self text ents now rnd)
       = U "Which course's sections would you like?"))
  /\ (truthy (dget ents "teacher") = false -> truthy (last_teacher (ctx self)) = false ->
      (predict_intent text = "teacher_info" ->
       fst (generate_response self text ents now rnd)
       = U "Which teacher would you like info about?")
      /\ (predict_intent text = "teacher_schedule" ->
          fst (generate_response self text ents now rnd)
          = U "Which teacher's schedule would you like to know about?"))
  /\ (truthy (dget ents "day") = false -> truthy (last_day (ctx self)) = false ->
      predict_intent text = "daily_schedule" ->
      fst (generate_response self text ents now rnd)
      = U "Which day's schedule would you like?").
Proof.
  split; [|split].
  - intros He Hl.
    pose proof (por_falsy ents "course" (last_course (ctx self)) He Hl) as Hf.
    repeat split; intros Hi; branch Hi;
      unfold _update_context; cbn [last_course];
      destruct (por _ _) as [|[|x s]]; done.
  - intros He Hl.
    pose proof (por_falsy ents "teacher" (last_teacher (ctx self)) He Hl) as Hf.
    repeat split; intros Hi; branch Hi;
      unfold _update_context; cbn [last_teacher];
      destruct (por _ _) as [|[|x s]]; done.
  - intros He Hl Hi.
    pose proof (por_falsy ents "day" (last_day (ctx self)) He Hl) as Hf.
    branch Hi. unfold _update_context; cbn [last_day].
    destruct (por _ _) as [|[|x s]]; done.
Qed.

(** A label without a branch is answered with the fallback sentence. *)
Theorem unknown_intent_fallback self text (ents : entities) now rnd :
  ~ In (predict_intent text) known_intents ->
  fst (generate_response self text ents now rnd)
  = U "Sorry, I didn’t understand. Could you clarify?".
Proof.
  intros Hun. unfold generate_response. cbn [fst].
  repeat match goal with
  | |- context [String.eqb (predict_intent text) ?l] =>
      destruct (String.eqb_spec (predict_intent text) l) as [Heq|_];
      [exfalso; apply Hun; rewrite Heq; vm_compute; tauto|]
  end.
  reflexivity.
Qed.

Lemma choice_of_two (rnd : nat) (a b : pystr) : choice rnd [a; b] = a \/ choice rnd [a; b] = b.
Proof.
  unfold choice. cbn [length].
  pose proof (Nat.mod_upper_bound rnd 2 ltac:(lia)) as Hlt.
  destruct (rnd mod 2)%nat as [|[|n]]; [by left|by right|lia].
Qed.

(** The four intents answered by [random.choice] return one of their two
    sentences, whatever is drawn. *)
Theorem canned_replies self text (ents : entities) now rnd :
  (predict_intent text = "greeting" ->
   In (fst (generate_response self text ents now rnd))
     [U "Merhaba! 📚 How can I assist you today?";
      U "Hi! Ready to help with your schedule. 😊"])
  /\ (predict_intent text = "goodbye" ->
      In (fst (generate_response self text ents now rnd))
        [U "Görüşürüz! 👋"; U "Bye! Take care! 😊"])
  /\ (predict_intent text = "thanks" ->
      In (fst (generate_response self text ents now rnd))
        [U "Rica ederim! 😊"; U "You're welcome!"])
  /\ (predict_intent text = "smalltalk_weather" ->
      In (fst (generate_response self text ents now rnd))
        [U "Hava durumu? ☀️ Check your window or a weather app!";
         U "Weather? I’m just predict sunny vibes! 😎"]).
Proof.
  repeat split; intros Hi; branch Hi;
    match goal with
    | |- In (choice ?r [?a; ?b]) _ =>
        destruct (choice_of_two r a b) as [-> | ->]; [by left|right; by left]
    end.
Qed.

End PromptProps.

Lemma clarification_prompts_witness :
  fst (@generate_response (stub_with_intent "daily_schedule")
         (stub_bot cs101_table fresh_context) (U "What is on?") empty_entities 0 0)
  = U "Which day's schedule would you like?".
Proof.
  apply (proj2 (proj2 (@clarification_prompts (stub_with_intent "daily_schedule")
           (stub_bot cs101_table fresh_context) (U "What is on?") empty_entities 0 0)));
    reflexivity.
Defined.

Lemma unknown_intent_fallback_witness :
  fst (@generate_response (stub_with_intent "tuition_fees")
         (stub_bot cs101_table fresh_context) (U "How much is it?") empty_entities 0 0)
  = U "Sorry, I didn’t understand. Could you clarify?".
Proof.
  apply (@unknown_intent_fallback (stub_with_intent "tuition_fees")).
  vm_compute. intros H.
  repeat (destruct H as [H|H]; [discriminate H|]). exact H.
Defined.

Lemma canned_replies_witness :
  In (fst (@generate_response (stub_with_intent "thanks")
             (stub_bot cs101_table fresh_context) (U "Thanks!") empty_entities 0 7))
    [U "Rica ederim! 😊"; U "You're welcome!"].
Proof.
  apply (proj1 (proj2 (proj2 (@canned_replies (stub_with_intent "thanks")
           (stub_bot cs101_table fresh_context) (U "Thanks!") empty_entities 0 7)))).
  reflexivity.
Defined.

(** ** Answers for names the table does not have *)

Section NotFoundProps.
Context `{B : Backend}.

Lemma filter_none {A} (f : A -> bool) (l : list A) :
  (forall x, In x l -> f x = false) -> List.filter f l = [].
Proof.
  induction l as [|x l IH]; intros Hf; simpl; [done|].
  rewrite (Hf x) by (by left). apply IH. intros y Hy. apply Hf. by right.
Qed.

Lemma por_named (ents : entities) k (name : pystr) last :
  name <> [] -> dget ents k = VStr name -> por (dget ents k) last = VStr name.
Proof. intros Hne ->. unfold por. by destruct name. Qed.

Lemma narrow_day_nil (day : value) : narrow_day day [] = [].
Proof. by destruct day as [|[|c s]]. Qed.

Ltac branch Hi :=
  unfold generate_response; rewrite Hi;
  cbn [fst String.eqb Ascii.eqb Bool.eqb df set_ctx].

(** A course, teacher or day the entities name, for which the table has no
    row of the kind the branch looks at, gets the branch's not-found
    sentence with that name in it. *)
Theorem not_found_answers self text (ents : entities) now rnd (name : pystr) :
  name <> [] ->
  (dget ents "course" = VStr name ->
   (forall r, In r (df self) -> Course r = name -> is_lecture r = false) ->
   (predict_intent text = "class_schedule" ->
    fst (generate_response self text ents now rnd)
    = U "No schedule found for " ++ name ++ U ".")
   /\ (predict_intent text = "room_info" ->
       fst (generate_response self text ents now rnd)
       = U "No room info found for " ++ name ++ U "."))
  /\ (dget ents "course" = VStr name ->
      (forall r, In r (df self) -> Course r = name -> is_exam r = false) ->
      predict_intent text = "exam_info" ->
      fst (generate_response self text ents now rnd)
      = U "No exam info found for " ++ name ++ U ".")
  /\ (dget ents "teacher" = VStr name ->
      (forall r, In r (df self) -> Teacher r = name -> is_lecture r = false) ->
      (predict_intent text = "teacher_info" ->
       fst (generate_response self text ents now rnd)
       = U "No courses found for " ++ name ++ U ".")
      /\ (predict_intent text = "teacher_schedule" ->
          fst (generate_response self text ents now rnd)
          = U "No schedule found for " ++ name ++ U "."))
  /\ (dget ents "day" = VStr name ->
      (forall r, In r (df self) -> Day r = name -> is_lecture r = false) ->
      predict_intent text = "daily_schedule" ->
      fst (generate_response self text ents now rnd)
      = U "No classes found for " ++ name ++ U ".").
Proof.
  intros Hne.
  assert (Hsel : forall (col : ScheduleRecord -> pystr) (kind : ScheduleRecord -> bool),
            (forall r, In r (df self) -> col r = name -> kind r = false) ->
            List.filter (fun r => str_eqb (col r) name && kind r) (df self) = []).
  { intros col kind Hno. apply filter_none. intros r Hr.
    destruct (str_eqb (col r) name) eqn:Hc; [|done].
    apply str_eqb_true in Hc. by rewrite (Hno r Hr Hc). }
  destruct name as [|c0 cs]; [done|].
  split; [|split; [|split]].
  - intros He Hno. split; intros Hi; branch Hi;
      rewrite (por_named ents "course" (c0 :: cs)) by done.
    + unfold class_schedule. rewrite (Hsel Course is_lecture Hno), narrow_day_nil. done.
    + unfold room_info. rewrite (Hsel Course is_lecture Hno), narrow_day_nil. done.
  - intros He Hno Hi. branch Hi.
    rewrite (por_named ents "course" (c0 :: cs)) by done.
    unfold exam_info, exam_rows. rewrite (Hsel Course is_exam Hno).
    by destruct (dget ents "exam_type") as [|[|x s]].
  - intros He Hno. split; intros Hi; branch Hi;
      rewrite (por_named ents "teacher" (c0 :: cs)) by done.
    + unfold teacher_info. by rewrite (Hsel Teacher is_lecture Hno).
    + unfold teacher_schedule. by rewrite (Hsel Teacher is_lecture Hno).
  - intros He Hno Hi. branch Hi.
    rewrite (por_named ents "day" (c0 :: cs)) by done.
    unfold daily_schedule. by rewrite (Hsel Day is_lecture Hno).
Qed.

End NotFoundProps.

Lemma not_found_answers_witness :
  fst (@generate_response (stub_with_intent "teacher_info")
         (stub_bot cs101_table fresh_context) (U "What does Dr. Can Demir teach?")
         (<["teacher" := VStr (U "Dr. Can Demir")]> empty_entities) 0 0)
  = U "No courses found for " ++ U "Dr. Can Demir" ++ U ".".
Proof.
  refine (proj1 (proj1 (proj2 (proj2 (@not_found_answers (stub_with_intent "teacher_info")
           (stub_bot cs101_table fresh_context) (U "What does Dr. Can Demir teach?")
           (<["teacher" := VStr (U "Dr. Can Demir")]> empty_entities) 0 0
           (U "Dr. Can Demir") _))) _ _) _).
  - discriminate.
  - vm_compute. reflexivity.
  - intros r [<-|[]] Ht. vm_compute in Ht. discriminate Ht.
  - reflexivity.
Defined.

(** ** The course and teacher vocabularies *)

Section DictProps.
Context {V : Type}.

Lemma keys_set_present (k : pystr) (v : V) (d : PyDict.t V) :
  In k (PyDict.keys d) -> PyDict.keys (PyDict.set k v d) = PyDict.keys d.
Proof.
  induction d as [|[k0 v0] d IH]; simpl; [done|].
  destruct (str_eqb k0 k) eqn:Hk; simpl; [done|].
  intros [Heq|Hin]; [apply str_eqb_false in Hk; done|]. by rewrite IH.
Qed.

Lemma keys_set_fresh (k : pystr) (v : V) (d : PyDict.t V) :
  ~ In k (PyDict.keys d) -> PyDict.keys (PyDict.set k v d) = PyDict.keys d ++ [k].
Proof.
  induction d as [|[k0 v0] d IH]; simpl; [done|]. intros Hno.
  destruct (str_eqb k0 k) eqn:Hk; simpl.
  - apply str_eqb_true in Hk. tauto.
  - rewrite IH; [done|tauto].
Qed.

(** Assigning to a key keeps the keys distinct. *)
Lemma keys_set_NoDup (k : pystr) (v : V) (d : PyDict.t V) :
  List.NoDup (PyDict.keys d) -> List.NoDup (PyDict.keys (PyDict.set k v d)).
Proof.
  intros Hd. destruct (List.in_dec (fun a b : pystr => decide (a = b)) k (PyDict.keys d))
    as [Hin|Hno].
  - by rewrite keys_set_present.
  - rewrite keys_set_fresh by done.
    apply List.NoDup_rev in Hd.
    rewrite <- (rev_involutive (PyDict.keys d ++ [k])). apply List.NoDup_rev.
    rewrite rev_unit. constructor; [|done]. by rewrite <- in_rev.
Qed.

Lemma get_in_values (k : pystr) (v : V) (d : PyDict.t V) :
  PyDict.get k d = Some v -> In v (PyDict.values d).
Proof.
  induction d as [|[k0 v0] d IH]; simpl; [done|].
  destruct (str_eqb k0 k); [intros [= ->]; by left|]. intros Hg. right. by apply IH.
Qed.

Lemma in_values_get (v : V) (d : PyDict.t V) :
  List.NoDup (PyDict.keys d) -> In v (PyDict.values d) -> exists k, PyDict.get k d = Some v.
Proof.
  induction d as [|[k0 v0] d IH]; simpl; [done|].
  intros Hd [->|Hin].
  - exists k0. by rewrite str_eqb_refl.
  - apply List.NoDup_cons_iff in Hd as [Hk0 Hd].
    destruct (IH Hd Hin) as [k Hk]. exists k.
    destruct (str_eqb k0 k) eqn:Heq; [|done].
    apply str_eqb_true in Heq. subst k0. exfalso. apply Hk0.
    clear -Hk. induction d as [|[k1 v1] d IH]; simpl in *; [done|].
    destruct (str_eqb k1 k) eqn:H1; [left; by apply str_eqb_true|right; by apply IH].
Qed.

(** A dictionary built by assignments in a loop: distinct keys, and each key
    maps to the last item entered under it. *)
Lemma built_dict (step : PyDict.t V -> V -> PyDict.t V) (enters : V -> pystr -> bool) :
  (forall m x, List.NoDup (PyDict.keys m) -> List.NoDup (PyDict.keys (step m x))) ->
  (forall m x k, PyDict.get k (step m x) = if enters x k then Some x else PyDict.get k m) ->
  forall l,
    List.NoDup (PyDict.keys (fold_left step l []))
    /\ forall k, PyDict.get k (fold_left step l [])
                 = List.find (fun x => enters x k) (rev l).
Proof.
  intros Hkeys Hget l. induction l as [|x l [IHk IHg]] using rev_ind.
  - split; [constructor|done].
  - rewrite fold_left_app, rev_unit. simpl. split; [by apply Hkeys|].
    intros k. rewrite Hget. destruct (enters x k); [done|apply IHg].
Qed.

End DictProps.

Section VocabularyExtra.
Context `{B : Backend}.

Lemma courses_built (d : DataFrame) :
  List.NoDup (PyDict.keys (_preprocess_courses d))
  /\ forall k, PyDict.get k (_preprocess_courses d)
               = List.find (fun c => str_eqb (_normalize_text c) k)
                   (rev (unique (List.map Course d))).
Proof.
  unfold _preprocess_courses. apply built_dict.
  - intros m x Hm. by apply keys_set_NoDup.
  - intros m x k. destruct (str_eqb (_normalize_text x) k) eqn:Hk.
    + apply str_eqb_true in Hk. subst k. apply get_set_eq.
    + apply str_eqb_false in Hk. by apply get_set_ne.
Qed.

Lemma teachers_built (d : DataFrame) :
  List.NoDup (PyDict.keys (_preprocess_teachers d))
  /\ forall k, PyDict.get k (_preprocess_teachers d)
               = List.find (fun t => negb (str_eqb t (U "-")) && str_eqb (_normalize_text t) k)
                   (rev (unique (List.map Teacher d))).
Proof.
  unfold _preprocess_teachers. apply built_dict.
  - intros m x Hm. destruct (str_eqb x (U "-")); [done|by apply keys_set_NoDup].
  - intros m x k. destruct (str_eqb x (U "-")); simpl; [done|].
    destruct (str_eqb (_normalize_text x) k) eqn:Hk.
    + apply str_eqb_true in Hk. subst k. apply get_set_eq.
    + apply str_eqb_false in Hk. by apply get_set_ne.
Qed.

Lemma courses_get_sound (d : DataFrame) (k c : pystr) :
  PyDict.get k (_preprocess_courses d) = Some c ->
  In c (List.map Course d) /\ _normalize_text c = k.
Proof.
  destruct (courses_built d) as [_ Hg]. rewrite Hg. intros Hc.
  apply find_some in Hc as [Hin Heq].
  rewrite <- in_rev, In_unique in Hin. by apply str_eqb_true in Heq.
Qed.

Lemma courses_get_complete (d : DataFrame) (c : pystr) :
  In c (List.map Course d) ->
  exists c', PyDict.get (_normalize_text c) (_preprocess_courses d) = Some c'.
Proof.
  destruct (courses_built d) as [_ Hg]. rewrite Hg. intros Hc.
  destruct (List.find _ _) as [c'|] eqn:Hf; [eauto|].
  exfalso. assert (Hrev : In c (rev (unique (List.map Course d))))
    by (rewrite <- in_rev; by apply In_unique).
  pose proof (find_none _ _ Hf c Hrev) as Hn. simpl in Hn.
  by rewrite str_eqb_refl in Hn.
Qed.

(** The course vocabulary has distinct keys; what a key maps to is a course
    of the table whose normalised name is the key; and the normalised name
    of every course of the table is a key. *)
Theorem course_vocabulary_sound_complete (d : DataFrame) :
  List.NoDup (PyDict.keys (_preprocess_courses d))
  /\ (forall k c, PyDict.get k (_preprocess_courses d) = Some c ->
        In c (List.map Course d) /\ _normalize_text c = k)
  /\ (forall c, In c (List.map Course d) ->
        exists c', PyDict.get (_normalize_text c) (_preprocess_courses d) = Some c'
                   /\ In c' (List.map Course d)
                   /\ _normalize_text c' = _normalize_text c).
Proof.
  destruct (courses_built d) as [Hk Hg]. split; [exact Hk|].
  assert (Hsound : forall k c, PyDict.get k (_preprocess_courses d) = Some c ->
            In c (List.map Course d) /\ _normalize_text c = k).
  { intros k c Hc. rewrite Hg in Hc. apply find_some in Hc as [Hin Heq].
    rewrite <- in_rev, In_unique in Hin. by apply str_eqb_true in Heq. }
  split; [exact Hsound|].
  intros c Hc. rewrite Hg.
  destruct (List.find _ _) as [c'|] eqn:Hf.
  - exists c'. rewrite <- Hg in Hf. destruct (Hsound _ _ Hf). done.
  - exfalso. assert (Hrev : In c (rev (unique (List.map Course d))))
      by (rewrite <- in_rev; by apply In_unique).
    pose proof (find_none _ _ Hf c Hrev) as Hn. simpl in Hn.
    by rewrite str_eqb_refl in Hn.
Qed.

(** The teacher vocabulary never holds the placeholder ["-"]: what a key maps
    to is a teacher of the table other than it, whose normalised name is the
    key; every other teacher's normalised name is a key; the keys are
    distinct. *)
Theorem teacher_vocabulary_skips_placeholder (d : DataFrame) :
  List.NoDup (PyDict.keys (_preprocess_teachers d))
  /\ (forall k t, PyDict.get k (_preprocess_teachers d) = Some t ->
        t <> U "-" /\ In t (List.map Teacher d) /\ _normalize_text t = k)
  /\ ~ In (U "-") (PyDict.values (_preprocess_teachers d))
  /\ (forall t, In t (List.map Teacher d) -> t <> U "-" ->
        exists t', PyDict.get (_normalize_text t) (_preprocess_teachers d) = Some t'
                   /\ _normalize_text t' = _normalize_text t).
Proof.
  destruct (teachers_built d) as [Hk Hg]. split; [exact Hk|].
  assert (Hsound : forall k t, PyDict.get k (_preprocess_teachers d) = Some t ->
            t <> U "-" /\ In t (List.map Teacher d) /\ _normalize_text t = k).
  { intros k t Ht. rewrite Hg in Ht. apply find_some in Ht as [Hin Heq].
    rewrite <- in_rev, In_unique in Hin. apply andb_true_iff in Heq as [Hd Heq].
    apply negb_true_iff, str_eqb_false in Hd. by apply str_eqb_true in Heq. }
  split; [exact Hsound|]. split.
  - intros Hin. apply in_values_get in Hin as [k Hget]; [|exact Hk].
    by destruct (Hsound _ _ Hget) as [Hne _].
  - intros t Ht Hne. rewrite Hg.
    destruct (List.find _ _) as [t'|] eqn:Hf.
    + exists t'. rewrite <- Hg in Hf. destruct (Hsound _ _ Hf) as (_ & _ & Hn). done.
    + exfalso. assert (Hrev : In t (rev (unique (List.map Teacher d))))
        by (rewrite <- in_rev; by apply In_unique).
      pose proof (find_none _ _ Hf t Hrev) as Hn. simpl in Hn.
      rewrite str_eqb_refl, andb_true_r in Hn.
      by apply negb_false_iff, str_eqb_true in Hn.
Qed.

End VocabularyExtra.

Lemma course_vocabulary_sound_complete_witness :
  exists c', PyDict.get (@_normalize_text Stub.backend (U "MATH201"))
               (@_preprocess_courses Stub.backend tuesday_table) = Some c'
             /\ In c' (List.map Course tuesday_table)
             /\ @_normalize_text Stub.backend c' = @_normalize_text Stub.backend (U "MATH201").
Proof.
  apply (proj2 (proj2 (@course_vocabulary_sound_complete Stub.backend tuesday_table))).
  right. left. reflexivity.
Defined.

Lemma teacher_vocabulary_skips_placeholder_witness :
  exists t', PyDict.get (@_normalize_text Stub.backend (U "Dr. Ali Veli"))
               (@_preprocess_teachers Stub.backend unassigned_table) = Some t'
             /\ @_normalize_text Stub.backend t' = @_normalize_text Stub.backend (U "Dr. Ali Veli").
Proof.
  apply (proj2 (proj2 (proj2 (@teacher_vocabulary_skips_placeholder Stub.backend
                                unassigned_table)))).
  - right. left. reflexivity.
  - discriminate.
Defined.

Example placeholder_left_out :
  @_preprocess_teachers Stub.backend unassigned_table = [(U "dr. ali veli", U "Dr. Ali Veli")].
Proof. reflexivity. Qed.

(** ** Availability, sections and a teacher's courses *)

Section AvailabilityProps.
Context `{B : Backend}.

Ltac branch Hi :=
  unfold generate_response; rewrite Hi;
  cbn [fst String.eqb Ascii.eqb Bool.eqb df set_ctx init normalized_courses].

Lemma contains_self (s : pystr) : contains s s = true.
Proof.
  assert (Hs : startswith s s = true) by (apply startswith_app; exists []; by rewrite app_nil_r).
  destruct s; simpl in *; [done|]. by rewrite Hs.
Qed.

(** A course is a value of the vocabulary exactly when its normalised name
    maps back to it. *)
Lemma available_iff (d : DataFrame) (course : pystr) :
  existsb (str_eqb course) (PyDict.values (_preprocess_courses d)) = true
  <-> PyDict.get (_normalize_text course) (_preprocess_courses d) = Some course.
Proof.
  destruct (courses_built d) as [Hk _].
  rewrite existsb_exists. split.
  - intros (c & Hin & Heq). apply str_eqb_true in Heq. subst c.
    destruct (in_values_get _ _ Hk Hin) as [k Hget].
    destruct (courses_get_sound _ _ _ Hget) as [_ <-]. exact Hget.
  - intros Hget. exists course. split; [by eapply get_in_values|apply str_eqb_refl].
Qed.

(** For a chatbot built from a table, a named course is reported available
    exactly when the vocabulary maps its normalised name back to it; that is
    so for every course of the table that shares its normalised name with no
    other course of the table. *)
Theorem course_availability_answer (d : DataFrame) c text (ents : entities) now rnd
    (course : pystr) :
  predict_intent text = "course_availability" ->
  dget ents "course" = VStr course -> course <> [] ->
  (PyDict.get (_normalize_text course) (_preprocess_courses d) = Some course ->
   fst (generate_response (set_ctx (init d) c) text ents now rnd)
   = U "✅ " ++ course ++ U " is available this semester.")
  /\ (PyDict.get (_normalize_text course) (_preprocess_courses d) <> Some course ->
      fst (generate_response (set_ctx (init d) c) text ents now rnd)
      = U "❌ " ++ course ++ U " is not available this semester.")
  /\ (In course (List.map Course d) ->
      (forall c', In c' (List.map Course d) ->
                  _normalize_text c' = _normalize_text course -> c' = course) ->
      PyDict.get (_normalize_text course) (_preprocess_courses d) = Some course).
Proof.
  intros Hi He Hne.
  assert (Hresp : fst (generate_response (set_ctx (init d) c) text ents now rnd)
                  = course_availability (VStr course) (_preprocess_courses d)).
  { branch Hi. by rewrite (por_named ents "course" course). }
  rewrite Hresp. destruct course as [|c0 cs]; [done|]. unfold course_availability.
  split; [|split].
  - intros Hget. apply available_iff in Hget. rewrite Hget. reflexivity.
  - intros Hget. destruct (existsb _ _) eqn:Hex; [|reflexivity].
    apply available_iff in Hex. exfalso. exact (Hget Hex).
  - intros Hin Huniq.
    destruct (courses_get_complete d _ Hin) as [c' Hget].
    destruct (courses_get_sound _ _ _ Hget) as [Hc' Hnorm].
    by rewrite (Huniq c' Hc' Hnorm) in Hget.
Qed.

(** A course the vocabulary holds is always among its own sections: the
    sections answer lists it, together with every course name that contains
    it, and nothing else. *)
Theorem section_info_lists_course (d : DataFrame) c text (ents : entities) now rnd
    (course : pystr) :
  predict_intent text = "section_info" ->
  dget ents "course" = VStr course -> course <> [] ->
  In course (PyDict.values (_preprocess_courses d)) ->
  exists sections,
    fst (generate_response (set_ctx (init d) c) text ents now rnd)
    = U "📚 Available sections: " ++ join (U ", ") sections
    /\ In course sections
    /\ forall s, In s sections
                 <-> In s (PyDict.values (_preprocess_courses d)) /\ contains s course = true.
Proof.
  intros Hi He Hne Hin.
  exists (List.filter (fun s => contains s course) (PyDict.values (_preprocess_courses d))).
  assert (Hself : In course (List.filter (fun s => contains s course)
                               (PyDict.values (_preprocess_courses d)))).
  { apply filter_In. split; [done|apply contains_self]. }
  split; [|split; [done|intros s; apply (filter_In (fun s => contains s course))]].
  branch Hi. rewrite (por_named ents "course" course) by done.
  destruct course as [|c0 cs]; [done|]. unfold section_info.
  destruct (List.filter _ _); [destruct Hself|reflexivity].
Qed.

(** The courses a teacher teaches are listed once each, in order of first
    appearance: exactly the courses of the teacher's Lecture rows. *)
Theorem teacher_info_lists_courses_once self text (ents : entities) now rnd
    (teacher : pystr) (r0 : ScheduleRecord) :
  predict_intent text = "teacher_info" ->
  dget ents "teacher" = VStr teacher -> teacher <> [] ->
  In r0 (df self) -> Teacher r0 = teacher -> is_lecture r0 = true ->
  exists courses,
    fst (generate_response self text ents now rnd)
    = U "👨‍🏫 " ++ teacher ++ U " teaches: " ++ join (U ", ") courses
    /\ List.NoDup courses
    /\ forall course, In course courses
                      <-> exists r, In r (df self) /\ Teacher r = teacher
                                    /\ is_lecture r = true /\ Course r = course.
Proof.
  intros Hi He Hne Hr0 Ht0 Hl0.
  set (rows := List.filter (fun r => str_eqb (Teacher r) teacher && is_lecture r) (df self)).
  exists (unique (List.map Course rows)).
  assert (Hrows : forall r, In r rows <-> In r (df self) /\ Teacher r = teacher
                                         /\ is_lecture r = true).
  { intros r. unfold rows. rewrite filter_In, andb_true_iff, str_eqb_true. tauto. }
  split; [|split].
  - unfold generate_response; rewrite Hi;
      cbn [fst String.eqb Ascii.eqb Bool.eqb df set_ctx].
    rewrite (por_named ents "teacher" teacher) by done.
    destruct teacher as [|c0 cs]; [done|]. unfold teacher_info. fold rows.
    destruct rows as [|r rs] eqn:Hrs; [|reflexivity].
    exfalso. by apply (proj2 (Hrows r0)).
  - clear. induction (List.map Course rows) as [|x l IH]; simpl; constructor.
    + rewrite filter_In, negb_true_iff, bool_decide_eq_false. tauto.
    + by apply List.NoDup_filter.
  - intros course. rewrite In_unique, in_map_iff. split.
    + intros (r & Hc & Hr). exists r. apply Hrows in Hr. tauto.
    + intros (r & Hr & Ht & Hl & Hc). exists r. split; [done|]. by apply Hrows.
Qed.

End AvailabilityProps.

Lemma course_availability_answer_witness :
  fst (@generate_response (stub_with_intent "course_availability")
         (set_ctx (@init (stub_with_intent "course_availability") tuesday_table) fresh_context)
         (U "Is MATH201 offered?") (<["course" := VStr (U "MATH201")]> empty_entities) 0 0)
  = U "✅ " ++ U "MATH201" ++ U " is available this semester.".
Proof.
  refine (proj1 (@course_availability_answer (stub_with_intent "course_availability")
                   tuesday_table fresh_context (U "Is MATH201 offered?")
                   (<["course" := VStr (U "MATH201")]> empty_entities) 0 0 (U "MATH201")
                   _ _ _) _).
  - reflexivity.
  - vm_compute. reflexivity.
  - discriminate.
  - vm_compute. reflexivity.
Defined.

Lemma section_info_lists_course_witness :
  exists sections,
    fst (@generate_response (stub_with_intent "section_info")
           (set_ctx (@init (stub_with_intent "section_info") sections_table) fresh_context)
           (U "Sections of CS101?") (<["course" := VStr (U "CS101")]> empty_entities) 0 0)
    = U "📚 Available sections: " ++ join (U ", ") sections
    /\ In (U "CS101") sections
    /\ forall s, In s sections
                 <-> In s (PyDict.values (@_preprocess_courses (stub_with_intent "section_info")
                                            sections_table))
                     /\ contains s (U "CS101") = true.
Proof.
  apply (@section_info_lists_course (stub_with_intent "section_info")).
  - reflexivity.
  - vm_compute. reflexivity.
  - discriminate.
  - vm_compute. tauto.
Defined.

Example sections_of_cs101 :
  fst (@generate_response (stub_with_intent "section_info")
         (set_ctx (@init (stub_with_intent "section_info") sections_table) fresh_context)
         (U "Sections of CS101?") (<["course" := VStr (U "CS101")]> empty_entities) 0 0)
  = U "📚 Available sections: CS101, CS101 Lab".
Proof. reflexivity. Qed.

Lemma teacher_info_lists_courses_once_witness :
  exists courses,
    fst (@generate_response (stub_with_intent "teacher_info")
           (stub_bot sections_table fresh_context) (U "What does Dr. Ali Veli teach?")
           (<["teacher" := VStr (U "Dr. Ali Veli")]> empty_entities) 0 0)
    = U "👨‍🏫 " ++ U "Dr. Ali Veli" ++ U " teaches: " ++ join (U ", ") courses
    /\ List.NoDup courses
    /\ forall course,
         In course courses
         <-> exists r, In r (df (stub_bot sections_table fresh_context))
                       /\ Teacher r = U "Dr. Ali Veli"
                       /\ is_lecture r = true /\ Course r = course.
Proof.
  apply (@teacher_info_lists_courses_once (stub_with_intent "teacher_info")
           (stub_bot sections_table fresh_context) (U "What does Dr. Ali Veli teach?")
           (<["teacher" := VStr (U "Dr. Ali Veli")]> empty_entities) 0 0 (U "Dr. Ali Veli")
           (mk_row (U "CS101") (U "Dr. Ali Veli") (U "Monday") None (U "201") (U "Lecture")
              None None)).
  - reflexivity.
  - vm_compute. reflexivity.
  - discriminate.
  - left. reflexivity.
  - reflexivity.
  - reflexivity.
Defined.

(** ** Each slot is reported once *)

Section SlotProps.

Lemma unique_NoDup {A} `{EqDecision A} (l : list A) : List.NoDup (unique l).
Proof.
  induction l as [|x l IH]; simpl; constructor.
  - rewrite filter_In, negb_true_iff, bool_decide_eq_false. tauto.
  - by apply List.NoDup_filter.
Qed.

(** Lists produced for distinct items, whose keys tell the item, have
    distinct keys when each list has. *)
Lemma flat_map_keys_NoDup {A E K} (f : A -> list E) (key : E -> K) (item : K -> A)
    (l : list A) :
  (forall a e, In e (f a) -> item (key e) = a) ->
  (forall a, List.NoDup (List.map key (f a))) ->
  List.NoDup l ->
  List.NoDup (List.map key (flat_map f l)).
Proof.
  intros Hitem Heach Hl. induction Hl as [|a l Ha Hl IH]; simpl; [constructor|].
  rewrite map_app. apply List.NoDup_app; [apply Heach|exact IH|].
  intros k Hk1 Hk2. apply Ha.
  apply in_map_iff in Hk1 as (e1 & <- & He1).
  apply in_map_iff in Hk2 as (e2 & Hkey & He2).
  apply in_flat_map in He2 as (a' & Ha' & He2).
  rewrite <- (Hitem a e1 He1), <- Hkey, (Hitem a' e2 He2). exact Ha'.
Qed.

(** No (day, time) pair occurs twice in [conflicts], so the answer has one
    line for each reported slot. *)
Theorem conflicts_slots_distinct (d : DataFrame) :
  List.NoDup (List.map (fun c => (fst (fst c), snd (fst c))) (conflicts d)).
Proof.
  unfold conflicts.
  apply (flat_map_keys_NoDup _ _ fst); [| |apply unique_NoDup].
  - intros day e He. apply in_flat_map in He as (time & _ & He).
    destruct time as [t|]; [|done].
    destruct (1 <? _)%nat; [|done]. by destruct He as [<-|[]].
  - intros day.
    apply (List.NoDup_map_inv (fun k : pystr * time => Some (snd k))).
    rewrite map_map.
    apply (flat_map_keys_NoDup _ _ (fun o : option time => o)); [| |apply unique_NoDup].
    + intros time e He. destruct time as [t|]; [|done].
      destruct (1 <? _)%nat; [|done]. by destruct He as [<-|[]].
    + intros time. destruct time as [t|]; [|constructor].
      destruct (1 <? _)%nat; simpl; repeat constructor. by intros [].
Qed.

End SlotProps.

(** ** Fuzzy matching and extraction at the edges *)

Section ExtractionEdges.
Context `{B : Backend}.

Lemma fuzzy_match_returns (text : pystr) (candidates : PyDict.t pystr) :
  candidates <> [] -> exists v, fuzzy_match_entity text candidates = Ok v.
Proof.
  intros Hc. unfold fuzzy_match_entity, fuzzy_match_entity_at.
  destruct text as [|c0 t]; [eauto|].
  destruct candidates as [|[k0 v0] rest]; [done|].
  change (PyDict.keys ((k0, v0) :: rest)) with (k0 :: PyDict.keys rest).
  destruct (extractOne_best (_normalize_text (c0 :: t)) k0 (PyDict.keys rest))
    as (k & s & Hex & _ & Hin & _).
  rewrite Hex. cbn [bind fst snd].
  destruct (70 <=? s)%Z; [|eauto].
  destruct (get_of_key ((k0, v0) :: rest) k Hin) as [v Hv]. rewrite Hv. eauto.
Qed.

(** The matcher answers [None] on an empty text without looking at the
    vocabulary, raises on a non-empty text when the vocabulary is empty,
    returns on every non-empty vocabulary, and what it returns is [None] or
    a name of the vocabulary whose key scores at least 70. *)
Theorem fuzzy_match_entity_edges (text : pystr) (candidates : PyDict.t pystr) :
  fuzzy_match_entity [] candidates = Ok VNone
  /\ (text <> [] -> fuzzy_match_entity text [] = Raise)
  /\ (candidates <> [] -> exists v, fuzzy_match_entity text candidates = Ok v)
  /\ (forall v, fuzzy_match_entity text candidates = Ok v ->
        v = VNone
        \/ exists k name,
             v = VStr name /\ PyDict.get k candidates = Some name
             /\ (70 <= token_sort_ratio (_normalize_text text) k)%Z).
Proof.
  split; [reflexivity|]. split; [by destruct text|]. split; [apply fuzzy_match_returns|].
  intros v. unfold fuzzy_match_entity, fuzzy_match_entity_at.
  destruct text as [|c0 t]; [intros [= <-]; by left|].
  destruct candidates as [|[k0 v0] rest]; [done|].
  change (PyDict.keys ((k0, v0) :: rest)) with (k0 :: PyDict.keys rest).
  destruct (extractOne_best (_normalize_text (c0 :: t)) k0 (PyDict.keys rest))
    as (k & s & Hex & Hs & Hin & _).
  rewrite Hex. cbn [bind fst snd].
  destruct (70 <=? s)%Z eqn:Hge; [|intros [= <-]; by left].
  destruct (PyDict.get k ((k0, v0) :: rest)) as [name|] eqn:Hget; [|done].
  intros [= <-]. right. exists k, name. apply Z.leb_le in Hge. subst s. done.
Qed.

Lemma fuzzy_stage_returns self normalized (e : entities) :
  normalized_courses self <> [] -> normalized_teachers self <> [] ->
  normalized_teachers_no_titles self <> [] ->
  exists e', fuzzy_stage self normalized e = Ok e'.
Proof.
  intros Hc Ht Hn. unfold fuzzy_stage.
  assert (H1 : exists e1, (if truthy (dget e "course") then Ok e
                           else do c <- fuzzy_match_entity normalized (normalized_courses self);
                                Ok (<["course" := c]> e)) = Ok e1).
  { destruct (truthy (dget e "course")); [eauto|].
    destruct (fuzzy_match_returns normalized _ Hc) as [v ->]. cbn [bind]. eauto. }
  destruct H1 as [e1 ->]. cbn [bind].
  destruct (truthy (dget e1 "teacher")); [eauto|].
  destruct (fuzzy_match_returns normalized _ Ht) as [t ->]. cbn [bind].
  destruct (truthy t); [eauto|].
  destruct (fuzzy_match_returns normalized _ Hn) as [t' ->]. cbn [bind]. eauto.
Qed.

Lemma ner_stage_returns self (es : list (string * pystr)) (e : entities) :
  normalized_teachers_no_titles self <> [] -> exists e', ner_stage self e es = Ok e'.
Proof.
  intros Hn. revert e.
  induction es as [|[label text] es IH]; intros e; cbn [ner_stage]; [eauto|].
  assert (Hstep : exists e1, ner_step self e (label, text) = Ok e1).
  { unfold ner_step.
    destruct (fuzzy_match_returns text _ Hn) as [t Ht].
    destruct (String.eqb label "COURSE").
    { rewrite Ht. cbn [bind]. destruct (truthy t); eauto. }
    repeat (match goal with
            | |- context [if String.eqb ?a ?b then _ else _] => destruct (String.eqb a b)
            end; [eauto|]).
    destruct (_ && _); [|eauto]. rewrite Ht. cbn [bind]. eauto. }
  destruct Hstep as [e1 ->]. cbn [bind]. apply IH.
Qed.

(** Extraction raises on every text that is not blank when the course
    vocabulary is empty (a chatbot built from an empty table), and returns a
    dictionary on every text when none of the three vocabularies is
    empty. *)
Theorem extract_entities_raises_or_returns self (text : pystr) :
  (normalized_courses self = [] -> _normalize_text text <> [] ->
   extract_entities self text = Raise)
  /\ (normalized_courses self <> [] -> normalized_teachers self <> [] ->
      normalized_teachers_no_titles self <> [] ->
      exists e, extract_entities self text = Ok e).
Proof.
  split.
  - intros Hc Hn. unfold extract_entities, fuzzy_stage. rewrite Hc.
    cbn [exact_match List.find option_map set_if_found].
    assert (Hcourse : forall o, truthy (dget (set_if_found "teacher" o empty_entities) "course")
                                = false).
    { intros [t|]; reflexivity. }
    rewrite Hcourse.
    unfold fuzzy_match_entity at 1, fuzzy_match_entity_at.
    destruct (_normalize_text text); [done|]. reflexivity.
  - intros Hc Ht Hn. unfold extract_entities.
    destruct (fuzzy_stage_returns self (_normalize_text text)
                (set_if_found "teacher"
                   (exact_match (_normalize_text text) (normalized_teachers self))
                   (set_if_found "course"
                      (exact_match (_normalize_text text) (normalized_courses self))
                      empty_entities)) Hc Ht Hn) as [e1 ->].
    cbn [bind].
    destruct (ner_stage_returns self (ents (nlp (detect_language text) text)) e1 Hn)
      as [e2 ->].
    cbn [bind]. eauto.
Qed.

(** The follow-up stage touches the keys [teacher] and [course] only, never
    replaces a teacher or a course the utterance already has, and what it
    fills in is the value an interaction of the history has for that key. *)
Theorem followup_stage_frame (followup : bool) (c : context) (e : entities) :
  (forall k, k <> "teacher"%string -> k <> "course"%string ->
             followup_stage followup c e !! k = e !! k)
  /\ (truthy (dget e "teacher") = true ->
      followup_stage followup c e !! "teacher" = e !! "teacher")
  /\ (truthy (dget e "course") = true ->
      followup_stage followup c e !! "course" = e !! "course")
  /\ (forall k, followup_stage followup c e !! k <> e !! k ->
        exists i, In i (history c)
                  /\ followup_stage followup c e !! k = Some (dget (i_entities i) k)
                  /\ truthy (dget (i_entities i) k) = true).
Proof.
  unfold followup_stage.
  destruct (followup || negb (truthy (dget e "course") || truthy (dget e "teacher")));
    [|repeat split; try done; intros k Hk; done].
  rewrite followup_scan_find.
  destruct (List.find (offers e) (rev (history c))) as [i|] eqn:Hfind;
    [|repeat split; try done; intros k Hk; done].
  apply find_some in Hfind as [Hin Hoff]. rewrite <- in_rev in Hin.
  unfold offers in Hoff.
  destruct (negb (truthy (dget e "teacher")) && truthy (dget (i_entities i) "teacher")) eqn:Ht.
  - apply andb_true_iff in Ht as [Hte Hti]. apply negb_true_iff in Hte.
    split; [intros k Hk1 Hk2; by rewrite lookup_insert_ne|].
    split; [intros Hset; congruence|].
    split; [intros _; by rewrite lookup_insert_ne|].
    intros k Hk. destruct (decide (k = "teacher"%string)) as [->|Hne].
    + exists i. by rewrite lookup_insert_eq.
    + by rewrite lookup_insert_ne in Hk.
  - simpl in Hoff. apply andb_true_iff in Hoff as [Hce Hci]. apply negb_true_iff in Hce.
    split; [intros k Hk1 Hk2; by rewrite lookup_insert_ne|].
    split; [intros _; by rewrite lookup_insert_ne|].
    split; [intros Hset; congruence|].
    intros k Hk. destruct (decide (k = "course"%string)) as [->|Hne].
    + exists i. by rewrite lookup_insert_eq.
    + by rewrite lookup_insert_ne in Hk.
Qed.

(** Once a teacher is resolved, keyword hits never write the course: with
    hits whose text is not empty, the course after the keyword stage is the
    course before it, and a teacher is still set. *)
Theorem keyword_stage_keeps_course (matches : list (string * pystr)) (e : entities) :
  truthy (dget e "teacher") = true ->
  (forall m, In m matches -> snd m <> []) ->
  dget (keyword_stage matches e) "course" = dget e "course"
  /\ truthy (dget (keyword_stage matches e) "teacher") = true.
Proof.
  unfold keyword_stage.
  match goal with |- context [fold_left ?f matches e] => set (step := f) end.
  assert (Hstep : forall (e : entities) m,
            truthy (dget e "teacher") = true -> snd m <> [] ->
            dget (step e m) "course" = dget e "course"
            /\ truthy (dget (step e m) "teacher") = true).
  { intros e0 [label text] Ht Htext. subst step. cbn [fst snd] in *.
    unfold keyword_to_entity.
    destruct (String.eqb label "course"); [cbn; by rewrite Ht|].
    destruct (String.eqb label "exam"); [cbn; by rewrite !dget_insert_ne|].
    destruct (String.eqb label "teacher"); [|done].
    cbn. rewrite dget_insert_eq, dget_insert_ne by done. by destruct text. }
  clearbody step. revert e.
  induction matches as [|m ms IH]; intros e Ht Hne; cbn [fold_left]; [done|].
  destruct (Hstep e m Ht) as [Hc Hteach]; [apply Hne; by left|].
  destruct (IH (step e m)) as [Hc' Hteach']; [done|intros m' Hm'; apply Hne; by right|].
  rewrite Hc'. done.
Qed.

End ExtractionEdges.

Lemma fuzzy_match_entity_edges_witness :
  @fuzzy_match_entity Stub.backend (U "physics") [] = Raise.
Proof.
  apply (proj1 (proj2 (@fuzzy_match_entity_edges Stub.backend (U "physics") []))).
  discriminate.
Defined.

Lemma extract_entities_raises_or_returns_witness :
  @extract_entities Stub.backend (stub_bot [] fresh_context) (U "When is CS101?") = Raise.
Proof.
  apply (proj1 (@extract_entities_raises_or_returns Stub.backend (stub_bot [] fresh_context)
                  (U "When is CS101?"))).
  - reflexivity.
  - vm_compute. discriminate.
Defined.

Lemma followup_stage_frame_witness :
  followup_stage true two_turns (<["teacher" := VStr (U "Prof. Dr. Ayşe Kaya")]> empty_entities)
    !! "teacher"
  = (<["teacher" := VStr (U "Prof. Dr. Ayşe Kaya")]> empty_entities : entities) !! "teacher".
Proof.
  apply (proj1 (proj2 (followup_stage_frame true two_turns
                         (<["teacher" := VStr (U "Prof. Dr. Ayşe Kaya")]> empty_entities)))).
  vm_compute. reflexivity.
Defined.

Lemma keyword_stage_keeps_course_witness :
  dget (keyword_stage [("course"%string, U "class"); ("teacher"%string, U "professor")]
          (<["teacher" := VStr (U "Dr. Ali Veli")]> empty_entities)) "course"
  = dget (<["teacher" := VStr (U "Dr. Ali Veli")]> empty_entities) "course"
  /\ truthy (dget (keyword_stage
                     [("course"%string, U "class"); ("teacher"%string, U "professor")]
                     (<["teacher" := VStr (U "Dr. Ali Veli")]> empty_entities)) "teacher")
     = true.
Proof.
  apply keyword_stage_keeps_course.
  - vm_compute. reflexivity.
  - intros m [<-|[<-|[]]]; discriminate.
Defined.

Example keyword_overwrites_teacher :
  dget (keyword_stage [("teacher"%string, U "professor")]
          (<["teacher" := VStr (U "Dr. Ali Veli")]> empty_entities)) "teacher"
  = VStr (U "professor").
Proof. vm_compute. reflexivity. Qed.

(** ** The loader: column check and cleaned times *)

Section LoaderExtra.
Context `{B : Backend}.
Import Loader.

Lemma filter_sublist {A} (f : A -> bool) (l : list A) : sublist (List.filter f l) l.
Proof.
  induction l as [|x l IH]; simpl; [constructor|].
  destruct (f x); [by apply sublist_skip|by apply sublist_cons].
Qed.

(** The column check passes exactly when every required column is among the
    sheet's columns, in any order and with any others beside; otherwise the
    error names the required columns that are absent, those only, in the
    order of the required list. *)
Theorem column_check (columns : list pystr) :
  (column_error columns = None <-> forall c, In c required_columns -> In c columns)
  /\ (forall c, In c (missing_columns columns)
                <-> In c required_columns /\ ~ In c columns)
  /\ sublist (missing_columns columns) required_columns
  /\ (forall msg, column_error columns = Some msg ->
        missing_columns columns <> []
        /\ msg = U "Missing required columns in Excel file: "
                 ++ join (U ", ") (missing_columns columns)).
Proof.
  assert (Hmiss : forall c, In c (missing_columns columns)
                            <-> In c required_columns /\ ~ In c columns).
  { intros c. unfold missing_columns. rewrite filter_In, negb_true_iff. split.
    - intros [Hr Hex]. split; [done|]. intros Hin.
      assert (Htrue : existsb (str_eqb c) columns = true)
        by (apply existsb_exists; exists c; split; [done|apply str_eqb_refl]).
      congruence.
    - intros [Hr Hno]. split; [done|].
      destruct (existsb (str_eqb c) columns) eqn:Hex; [|done].
      apply existsb_exists in Hex as (c' & Hin & Heq). apply str_eqb_true in Heq.
      subst c'. done. }
  split; [|split; [exact Hmiss|split; [apply filter_sublist|]]].
  - unfold column_error. split.
    + intros Hnone c Hc.
      destruct (List.in_dec (fun a b : pystr => decide (a = b)) c columns) as [Hin|Hno];
        [done|].
      assert (Hm : In c (missing_columns columns)) by (by apply Hmiss).
      destruct (missing_columns columns); [destruct Hm|discriminate Hnone].
    + intros Hall. destruct (missing_columns columns) as [|c m] eqn:Hm; [done|].
      assert (Hc : In c (c :: m)) by (by left).
      apply Hmiss in Hc as [Hr Hno]. exfalso. by apply Hno, Hall.
  - intros msg. unfold column_error.
    destruct (missing_columns columns) as [|c m]; [done|]. intros [= <-]. done.
Qed.

Lemma lstrip_head (s : pystr) (c : N) (r : pystr) : lstrip s = c :: r -> is_space c = false.
Proof.
  induction s as [|x s IH]; simpl; [done|].
  destruct (is_space x) eqn:Hx; [exact IH|]. by intros [= <- _].
Qed.

Lemma in_strip_inv (c : N) (s : pystr) : In c (strip s) -> In c s.
Proof.
  intros Hin. destruct (strip_infix s) as (a & b & Hs). rewrite Hs.
  apply in_or_app. right. apply in_or_app. by left.
Qed.

Lemma strip_has_nonspace (s : pystr) :
  strip s <> [] <-> exists c, In c s /\ is_space c = false.
Proof.
  split.
  - destruct (strip s) as [|c r] eqn:Hs; [done|]. intros _. exists c. split.
    + apply in_strip_inv. rewrite Hs. by left.
    + unfold strip in Hs. by apply lstrip_head in Hs.
  - intros (c & Hin & Hc) Hs. pose proof (in_strip c s Hin Hc) as Hin'.
    rewrite Hs in Hin'. destruct Hin'.
Qed.

Lemma in_split_first (c sep : N) (s : pystr) :
  In c (split_first sep s) -> In c s /\ c <> sep.
Proof.
  induction s as [|x s IH]; simpl; [done|].
  destruct (x =? sep) eqn:Hx; [done|]. apply N.eqb_neq in Hx.
  intros [<-|Hin]; [by auto|]. destruct (IH Hin). auto.
Qed.

Lemma in_replace_dots (c : N) (s : pystr) : In c (replace_char 46 58 s) -> c <> 46.
Proof.
  unfold replace_char. intros Hin. apply in_map_iff in Hin as (y & <- & _).
  destruct (y =? 46) eqn:Hy; [done|by apply N.eqb_neq].
Qed.

Lemma replace_dots_id (s : pystr) :
  (forall c, In c s -> c <> 46) -> replace_char 46 58 s = s.
Proof.
  unfold replace_char. induction s as [|x s IH]; intros Hno; simpl; [done|].
  assert (Hx : (x =? 46) = false) by (apply N.eqb_neq, Hno; by left).
  rewrite Hx, IH; [done|]. intros c Hc. apply Hno. by right.
Qed.

Lemma contains_char_false (s : pystr) (c : N) :
  contains s [c] = false -> forall x, In x s -> x <> c.
Proof.
  intros Hcon x Hin ->. apply in_split in Hin as (a & b & ->).
  by rewrite contains_char in Hcon.
Qed.

Lemma clean_time_chars (x : cell) (c : N) : In c (clean_time x) -> c <> 46 /\ c <> 45.
Proof.
  unfold clean_time. destruct x as [s|]; [|done].
  destruct (nonempty (strip s)); [|done]. change (U "-") with [45].
  destruct (contains (replace_char 46 58 s) [45]) eqn:Hdash.
  - intros Hin. apply in_strip_inv, in_split_first in Hin as [Hin Hne].
    split; [by eapply in_replace_dots|done].
  - intros Hin. split; [by eapply in_replace_dots|by eapply contains_char_false].
Qed.

Lemma clean_time_nonblank (x : cell) :
  clean_time x <> [] -> exists c, In c (clean_time x) /\ is_space c = false.
Proof.
  unfold clean_time. destruct x as [s|]; [|done].
  destruct (nonempty (strip s)) eqn:Hne; [|done]. change (U "-") with [45].
  destruct (contains (replace_char 46 58 s) [45]).
  - intros Hy. apply strip_has_nonspace in Hy as (c & Hin & Hc).
    exists c. split; [by apply in_strip|done].
  - intros _.
    assert (Hs : strip s <> []) by (by destruct (strip s)).
    apply strip_has_nonspace in Hs as (c & Hin & Hc).
    exists (if c =? 46 then 58 else c). split.
    + unfold replace_char. apply in_map_iff. by exists c.
    + by destruct (c =? 46).
Qed.

(** Cleaned time text holds neither a dot nor a dash; cleaning it again
    changes nothing; and a cell that is no string, or a blank one, is cleaned
    to the empty text, which loads to [None] without the parser being
    asked. *)
Theorem clean_time_output (x : cell) :
  (forall c, In c (clean_time x) -> c <> 46 /\ c <> 45)
  /\ clean_time (CStr (clean_time x)) = clean_time x
  /\ (x = CObj \/ (exists s, x = CStr s /\ strip s = []) -> clean_time x = [])
  /\ (clean_time x = [] -> load_time_cell x = Ok None).
Proof.
  split; [apply clean_time_chars|]. split; [|split].
  - destruct (clean_time x) as [|y0 ys] eqn:Hy; [reflexivity|].
    assert (Hne : clean_time x <> []) by (by rewrite Hy).
    apply clean_time_nonblank in Hne. rewrite Hy in Hne.
    pose proof (clean_time_chars x) as Hchars. rewrite Hy in Hchars.
    unfold clean_time.
    assert (Hstrip : nonempty (strip (y0 :: ys)) = true).
    { apply strip_has_nonspace in Hne. by destruct (strip (y0 :: ys)). }
    rewrite Hstrip, replace_dots_id by (intros c Hc; by apply Hchars).
    change (U "-") with [45].
    by rewrite not_contains_char by (intros c Hc; by apply Hchars).
  - intros [->|(s & -> & Hs)]; [reflexivity|]. unfold clean_time. by rewrite Hs.
  - intros Hy. unfold load_time_cell. by rewrite Hy.
Qed.

Lemma pad2_inj (n m : N) : n < 100 -> m < 100 -> pad2 n = pad2 m -> n = m.
Proof.
  intros Hn Hm. unfold pad2. intros [= Ht Hu].
  assert (Hdn : n / 10 < 10) by (apply N.Div0.div_lt_upper_bound; lia).
  assert (Hdm : m / 10 < 10) by (apply N.Div0.div_lt_upper_bound; lia).
  rewrite !N.mod_small in Ht by done.
  rewrite (N.div_mod' n 10), (N.div_mod' m 10). lia.
Qed.

(** A present time of day prints as five characters, two times print alike
    exactly when they agree in hour and minute (seconds are not shown), and
    no time prints as the text used for an absent one. *)
Theorem format_time_shape (t1 t2 : time) :
  hour t1 < 24 -> minute t1 < 60 -> hour t2 < 24 -> minute t2 < 60 ->
  length (_format_time (Some t1)) = 5%nat
  /\ (_format_time (Some t1) = _format_time (Some t2)
      <-> hour t1 = hour t2 /\ minute t1 = minute t2)
  /\ _format_time (Some t1) <> _format_time None.
Proof.
  intros Hh1 Hm1 Hh2 Hm2. unfold _format_time, pad2. change (U ":") with [58].
  cbn [app length]. split; [reflexivity|]. split.
  - split.
    + intros [= Ha Hb Hc Hd]. split; apply pad2_inj; try lia; unfold pad2; congruence.
    + intros [-> ->]. reflexivity.
  - intros Heq. apply (f_equal (@length N)) in Heq. vm_compute in Heq. discriminate Heq.
Qed.

End LoaderExtra.

Lemma column_check_witness :
  column_error [U "Exam Time"; U "Exam Date"; U "Exam Type"; U "Room"; U "Time"; U "Day";
                U "Teacher"; U "Course"; U "Notes"] = None.
Proof.
  apply (proj1 (column_check _)).
  intros c Hc. vm_compute in Hc.
  repeat (destruct Hc as [<-|Hc]; [vm_compute; tauto|]). destruct Hc.
Defined.

Example column_error_names_missing :
  column_error [U "Course"; U "Teacher"; U "Day"; U "Room"; U "Exam Type"; U "Exam Time"]
  = Some (U "Missing required columns in Excel file: Time, Exam Date").
Proof. reflexivity. Qed.

Lemma clean_time_output_witness :
  @Loader.load_time_cell Stub.backend (CStr (U "   ")) = Ok None.
Proof.
  apply (proj2 (proj2 (proj2 (@clean_time_output Stub.backend (CStr (U "   ")))))).
  apply (proj1 (proj2 (proj2 (@clean_time_output Stub.backend (CStr (U "   ")))))).
  right. exists (U "   "). split; reflexivity.
Defined.

Lemma format_time_shape_witness :
  length (_format_time (Some (mk_time 9 5 30))) = 5%nat
  /\ (_format_time (Some (mk_time 9 5 30)) = _format_time (Some (mk_time 9 5 0))
      <-> hour (mk_time 9 5 30) = hour (mk_time 9 5 0)
          /\ minute (mk_time 9 5 30) = minute (mk_time 9 5 0))
  /\ _format_time (Some (mk_time 9 5 30)) <> _format_time None.
Proof. apply format_time_shape; reflexivity. Defined.

(** ** The lines of a schedule answer *)

Section LineProps.
Context `{B : Backend}.

Lemma append_lines_flat_map (header : pystr) keep line (d : DataFrame) :
  append_lines header keep line d = header ++ flat_map line (List.filter keep d).
Proof.
  unfold append_lines. revert header.
  induction d as [|r d IH]; intros header; simpl; [by rewrite app_nil_r|].
  destruct (keep r); simpl; rewrite IH; [by rewrite <- app_assoc|done].
Qed.

(** When the course has Lecture rows (on the day asked for, if a day is in
    play), the schedule answer is the header followed by one line for each
    of those rows that has a time and a day, in the order of the table, with
    the white space at the end removed; rows without a time or a day give no
    line. *)
Theorem class_schedule_lines self text (ents : entities) now rnd (course : pystr)
    (day : value) :
  predict_intent text = "class_schedule" ->
  dget ents "course" = VStr course -> course <> [] ->
  operative ents "day" (last_day (ctx self)) = day ->
  narrow_day day (List.filter (fun r => str_eqb (Course r) course && is_lecture r) (df self))
  <> [] ->
  fst (generate_response self text ents now rnd)
  = rstrip (U "📚 Schedule for " ++ course ++ U ":" ++ [nl]
            ++ flat_map (fun r => U "- " ++ Day r ++ U " at " ++ _format_time (Time r)
                                  ++ U " in room " ++ Room r ++ [nl])
                 (List.filter (fun r => bool_decide (Time r <> None) && nonempty (Day r))
                    (narrow_day day
                       (List.filter (fun r => str_eqb (Course r) course && is_lecture r)
                          (df self))))).
Proof.
  intros Hi He Hne Hday Hrows.
  unfold generate_response; rewrite Hi;
    cbn [fst String.eqb Ascii.eqb Bool.eqb df set_ctx].
  rewrite (por_named ents "course" course) by done.
  unfold _update_context; cbn [last_day].
  change (por (dget ents "day") (dget_or ents "day" (last_day (ctx self))))
    with (operative ents "day" (last_day (ctx self))).
  rewrite Hday. destruct course as [|c0 cs]; [done|]. unfold class_schedule.
  destruct (narrow_day day _) as [|r rs] eqn:Hn; [done|].
  rewrite append_lines_flat_map, <- !app_assoc.
  apply strip_headed. vm_compute. reflexivity.
Qed.

End LineProps.

Lemma class_schedule_lines_witness :
  fst (@generate_response Stub.backend (stub_bot cs101_table fresh_context)
         (U "When is CS101?") (<["course" := VStr (U "CS101")]> empty_entities) 0 0)
  = rstrip (U "📚 Schedule for " ++ U "CS101" ++ U ":" ++ [nl]
            ++ flat_map (fun r => U "- " ++ Day r ++ U " at " ++ _format_time (Time r)
                                  ++ U " in room " ++ Room r ++ [nl])
                 (List.filter (fun r => bool_decide (Time r <> None) && nonempty (Day r))
                    (narrow_day VNone
                       (List.filter (fun r => str_eqb (Course r) (U "CS101") && is_lecture r)
                          (df (stub_bot cs101_table fresh_context)))))).
Proof.
  apply (@class_schedule_lines Stub.backend).
  - reflexivity.
  - vm_compute. reflexivity.
  - discriminate.
  - vm_compute. reflexivity.
  - vm_compute. discriminate.
Defined.

(** ** The lexical passes: the last token wins *)

Section LexicalProps.
Context `{B : Backend}.

(** A loop that assigns one key for some of its items. *)
Lemma last_writer {A} (step : entities -> A -> entities) (key : string)
    (pick : A -> option value) :
  (forall e a, step e a = match pick a with Some v => <[key := v]> e | None => e end) ->
  forall (l : list A) (e : entities),
    fold_left step l e !! key
    = match List.find (fun a => bool_decide (is_Some (pick a))) (rev l) with
      | Some a => pick a
      | None => e !! key
      end
    /\ forall k, k <> key -> fold_left step l e !! k = e !! k.
Proof.
  intros Hstep l. induction l as [|a l IH] using rev_ind; intros e; [done|].
  rewrite fold_left_app, rev_unit. cbn [fold_left List.find].
  destruct (IH e) as [IHkey IHother]. rewrite Hstep.
  destruct (pick a) as [v|] eqn:Hp.
  - rewrite bool_decide_eq_true_2 by eauto. split; [rewrite Hp; apply lookup_insert_eq|].
    intros k Hk. rewrite lookup_insert_ne by done. by apply IHother.
  - rewrite bool_decide_eq_false_2 by (by intros [? ?]). done.
Qed.

(** The weekday, building and exam-type passes each write one key only, and
    write it from the last token that qualifies: the canonical name of the
    last Turkish weekday, the last building identifier, the lower-cased
    lemma of the last exam keyword; with no such token the key keeps the
    value it had. *)
Theorem lexical_passes_last_token (l : lang) (d : doc) (e : entities) :
  (day_stage d e !! "day"
   = match List.find (fun tok => bool_decide (is_Some (weekday_of tok))) (rev (tokens d)) with
     | Some tok => weekday_of tok
     | None => e !! "day"
     end
   /\ forall k, k <> "day"%string -> day_stage d e !! k = e !! k)
  /\ (building_stage d e !! "building"
      = match List.find (fun tok => bool_decide (is_Some (building_of tok)))
                (rev (tokens d)) with
        | Some tok => building_of tok
        | None => e !! "building"
        end
      /\ forall k, k <> "building"%string -> building_stage d e !! k = e !! k)
  /\ (exam_stage l d e !! "exam_type"
      = match List.find (fun tok => bool_decide (is_Some (exam_type_of l tok)))
                (rev (tokens d)) with
        | Some tok => exam_type_of l tok
        | None => e !! "exam_type"
        end
      /\ forall k, k <> "exam_type"%string -> exam_stage l d e !! k = e !! k).
Proof.
  split; [|split].
  - apply (last_writer _ "day" weekday_of). intros e0 tok. unfold weekday_of.
    by destruct (PyDict.get _ _).
  - apply (last_writer _ "building" building_of). intros e0 tok. unfold building_of.
    by destruct (existsb _ _).
  - apply (last_writer _ "exam_type" (exam_type_of l)). intros e0 tok. unfold exam_type_of.
    by destruct (existsb _ _).
Qed.

End LexicalProps.

Example two_weekdays :
  @day_stage Stub.backend
    (mk_doc [] [(U "Salı", U "salı"); (U "veya", U "veya"); (U "CUMA", U "cuma")])
    empty_entities !! "day"
  = Some (VStr (U "Cuma")).
Proof. vm_compute. reflexivity. Qed.
